(** * lib/rpc.py: the node RPC client of Ganeti

    A shallow embedding of [NodeController], [Client] and of the
    [RpcRunner] calls built on them, followed by the properties of the
    fan-out call that the specification states.

    Python objects that the code mutates ([Client.nc], [Client.results])
    are finite maps threaded through the calls; the network and the log
    are an explicit world that records every call made on an HTTP
    connection; a raised exception is a value of [res]. *)

From Stdlib Require Import ZArith Lia Ascii.
From stdpp Require Import gmap strings list fin_maps pretty.

Local Open Scope string_scope.
Local Open Scope Z_scope.
Local Open Scope list_scope.

(** ** Python values *)

(** What [simplejson.loads] returns and [simplejson.dumps] accepts:
    [None], booleans, integers, strings, lists and string-keyed
    dictionaries.  A dictionary is kept as the list of its items, in the
    order of the payload.  Floating point numbers are not embedded. *)
#[warnings="-register-all"]
Inductive pyval : Type :=
| PNone
| PBool (b : bool)
| PInt (z : Z)
| PStr (s : string)
| PList (l : list pyval)
| PDict (kvs : list (string * pyval)).

(** Truth value testing, as in [if not length] and [if result[node_name]]. *)
Definition truthy (v : pyval) : bool :=
  match v with
  | PNone => false
  | PBool b => b
  | PInt z => negb (z =? 0)
  | PStr s => negb (String.eqb s EmptyString)
  | PList l => match l with [] => false | _ => true end
  | PDict kvs => match kvs with [] => false | _ => true end
  end.

(** ** Exceptions and results *)

Inductive exn : Type :=
| SocketError      (* socket.error and its subclasses *)
| ValueError
| TypeError
| HTTPException    (* httplib.BadStatusLine and the like *)
| OverflowError.

Inductive res (A : Type) : Type :=
| Ret (a : A)
| Raise (e : exn).
Arguments Ret {A} a.
Arguments Raise {A} e.

Definition res_bind {A B} (r : res A) (k : A → res B) : res B :=
  match r with
  | Ret a => k a
  | Raise e => Raise e
  end.

(** ** The world: connections, network and log *)

(** Every call made on an [httplib.HTTPConnection] and every log record,
    in program order.  [conn] is the serial number of the connection
    object. *)
Inductive event : Type :=
| EvConnect (conn : nat) (host : string) (port : Z)
| EvPutRequest (conn : nat) (method url : string)
| EvPutHeader (conn : nat) (header value : string)
| EvEndHeaders (conn : nat)
| EvSend (conn : nat) (data : string)
| EvGetResponse (conn : nat)
| EvRead (conn : nat) (amt : Z)
| EvLog (msg : string).

Record world : Type := World {
  trace : list event;
  opened : nat            (* number of connection objects created so far *)
}.

Definition world0 : world := World [] 0.

(** Where a [socket.error] strikes while the request is sent. *)
Inductive open_fault : Type :=
| FaultConnect
| FaultEndHeaders
| FaultSend.

(** What [getresponse] hands back: the status line, the Content-Length
    header if there is one, the bytes of the body that the peer really
    delivered before it closed the connection, and the exception, if
    any, that [read(amt)] raises on this response: [OverflowError] for
    an [amt] that the platform cannot pass to the socket, [socket.error]
    when the connection breaks while the body is read. *)
Record response : Type := Response {
  status : Z;
  content_length : option string;
  avail : string;
  read_fault : Z → option exn
}.

Inductive reply : Type :=
| Reply (r : response)
| NoReply (e : exn).     (* [getresponse] raises *)

Record behaviour : Type := Behaviour {
  opening : option open_fault;
  answer : reply
}.

(** The behaviour of the peer, for each host and each connection. *)
Definition network : Type := string → nat → behaviour.

(** ** State and exception monad *)

Definition M (A : Type) : Type := world → res A * world.

Definition ret {A} (a : A) : M A := λ w, (Ret a, w).
Definition raise {A} (e : exn) : M A := λ w, (Raise e, w).
Definition bind {A B} (m : M A) (k : A → M B) : M B :=
  λ w, match m w with
       | (Ret a, w') => k a w'
       | (Raise e, w') => (Raise e, w')
       end.
Definition lift {A} (r : res A) : M A := λ w, (r, w).

(** [try: body except socket.error: handler] *)
Definition except_socket_error {A} (body : M A) (handler : M A) : M A :=
  λ w, match body w with
       | (Raise SocketError, w') => handler w'
       | r => r
       end.

Definition emit (e : event) : M unit :=
  λ w, (Ret tt, World (trace w ++ [e]) (opened w)).

Notation "x <- m ;; k" := (bind m (λ x, k))
  (at level 100, m at next level, right associativity, only parsing).
Notation "m ;;> k" := (bind m (λ _, k))
  (at level 100, right associativity, only parsing).

(** ** What the module imports *)

(** [simplejson], the builtin [int], [utils] and [objects] are not part
    of this module; the code is embedded over any implementation of
    them. *)
Class Imports : Type := {
  (** [simplejson.dumps] *)
  dumps : pyval → string;
  (** [simplejson.loads]; raises [ValueError] on a malformed payload *)
  loads : string → res pyval;
  (** [int] on a header value; raises [ValueError] *)
  py_int : string → res Z;
  (** [utils.GetNodeDaemonPort()], [utils.GetNodeDaemonPassword()] *)
  GetNodeDaemonPort : Z;
  GetNodeDaemonPassword : string;
  (** [objects.OS] and [objects.OS.FromDict] *)
  OS : Type;
  OS_FromDict : pyval → res OS;
  (** [dict.items()]: the items of a dictionary in its iteration order,
      whatever that order is *)
  items : ∀ V, gmap string V → list (string * V);
  items_perm : ∀ V (m : gmap string V), items V m ≡ₚ map_to_list m
}.
Arguments items {_ V} m.

(** ** httplib.HTTPConnection *)

Section Httplib.
Context (net : network).

(** [httplib.HTTPConnection(host, port)]: a fresh connection object;
    nothing is sent yet. *)
Definition HTTPConnection : M nat :=
  λ w, (Ret (opened w), World (trace w) (S (opened w))).

Definition hc_connect (hc : nat) (host : string) (port : Z) : M unit :=
  emit (EvConnect hc host port) ;;>
  match opening (net host hc) with
  | Some FaultConnect => raise SocketError
  | _ => ret tt
  end.

Definition hc_putrequest (hc : nat) (method url : string) : M unit :=
  emit (EvPutRequest hc method url).

Definition hc_putheader (hc : nat) (header value : string) : M unit :=
  emit (EvPutHeader hc header value).

Definition hc_endheaders (hc : nat) (host : string) : M unit :=
  emit (EvEndHeaders hc) ;;>
  match opening (net host hc) with
  | Some FaultEndHeaders => raise SocketError
  | _ => ret tt
  end.

Definition hc_send (hc : nat) (host : string) (data : string) : M unit :=
  emit (EvSend hc data) ;;>
  match opening (net host hc) with
  | Some FaultSend => raise SocketError
  | _ => ret tt
  end.

Definition hc_getresponse (hc : nat) (host : string) : M response :=
  emit (EvGetResponse hc) ;;>
  match answer (net host hc) with
  | Reply r => ret r
  | NoReply e => raise e
  end.

(** [resp.getheader('Content-Length', default)] *)
Definition getheader_content_length (resp : response) (default : string) : string :=
  match content_length resp with
  | Some v => v
  | None => default
  end.

(** [resp.read(amt)]: raises when the read fails; otherwise returns at
    most [amt] bytes of what the peer delivered, and everything when
    [amt] is negative. *)
Definition resp_read (hc : nat) (resp : response) (amt : Z) : M string :=
  emit (EvRead hc amt) ;;>
  match read_fault resp amt with
  | Some e => raise e
  | None =>
      ret (if amt <? 0 then avail resp
           else String.substring 0 (Z.to_nat amt) (avail resp))
  end.
End Httplib.

(** ** NodeController *)

Section Rpc.
Context `{Imports} (net : network).

(** The attributes of a [NodeController].  [parent] is read by
    [__init__] only (port, procedure and body) and is passed to it; it
    is not stored a second time. *)
Record NodeController : Type := MkNodeController {
  node : string;
  failed : bool;
  http_conn : nat
}.

(** The attributes of a [Client].  [nodepw] and [args] are stored and
    never read again; they are kept as the code keeps them. *)
Record Client : Type := MkClient {
  port : Z;
  nodepw : string;
  nc : gmap string NodeController;
  results : gmap string pyval;
  procedure : string;
  args : pyval;
  body : string
}.

(** [NodeController.__init__(self, parent, node)] *)
Definition NodeController_init (parent : Client) (node : string)
  : M NodeController :=
  hc <- HTTPConnection ;;
  except_socket_error
    (hc_connect net hc node (port parent) ;;>
     hc_putrequest hc "PUT" ("/" +:+ procedure parent) ;;>
     hc_putheader hc "Content-Length"
       (pretty (String.length (body parent))) ;;>
     hc_endheaders net hc node ;;>
     hc_send net hc node (body parent) ;;>
     ret (MkNodeController node false hc))
    (emit (EvLog ("Error connecting to node " +:+ node)) ;;>
     ret (MkNodeController node true hc)).

(** [NodeController.get_response(self)] *)
Definition get_response (self : NodeController) : M pyval :=
  if failed self then
    (* we already failed in connect *)
    ret (PBool false)
  else
    resp <- hc_getresponse net (http_conn self) (node self) ;;
    if negb (status resp =? 200) then ret (PBool false)
    else
      match py_int (getheader_content_length resp "0") with
      | Raise ValueError => ret (PBool false)
      | Raise e => raise e
      | Ret length =>
          if length =? 0 then
            emit (EvLog ("Zero-length reply from node " +:+ node self)) ;;>
            ret (PBool false)
          else
            payload <- resp_read (http_conn self) resp length ;;
            unload <- lift (loads payload) ;;
            ret unload
      end.

(** ** Client *)

(** [Client.__init__(self, procedure, args)] *)
Definition Client_init (procedure : string) (args : pyval) : Client :=
  {| port := GetNodeDaemonPort;
     nodepw := GetNodeDaemonPassword;
     nc := ∅;
     results := ∅;
     procedure := procedure;
     args := args;
     body := dumps args |}.

Definition set_nc (self : Client) (m : gmap string NodeController) : Client :=
  MkClient (port self) (nodepw self) m (results self)
           (procedure self) (args self) (body self).

Definition set_results (self : Client) (m : gmap string pyval) : Client :=
  MkClient (port self) (nodepw self) (nc self) m
           (procedure self) (args self) (body self).

(** [Client.connect(self, connect_node)] *)
Definition connect (self : Client) (connect_node : string) : M Client :=
  c <- NodeController_init self connect_node ;;
  ret (set_nc self (<[connect_node := c]> (nc self))).

(** [Client.connect_list(self, node_list)] *)
Fixpoint connect_list (self : Client) (node_list : list string) : M Client :=
  match node_list with
  | [] => ret self
  | n :: rest => self' <- connect self n ;; connect_list self' rest
  end.

(** [Client.getresult(self)] *)
Definition getresult (self : Client) : gmap string pyval := results self.

(** The loop of [Client.run] over [self.nc.items()]. *)
Fixpoint run_loop (self : Client) (its : list (string * NodeController))
  : M Client :=
  match its with
  | [] => ret self
  | (n, c) :: rest =>
      r <- get_response c ;;
      run_loop (set_results self (<[n := r]> (results self))) rest
  end.

(** [Client.run(self)] *)
Definition run (self : Client) : M Client :=
  run_loop self (items (nc self)).

(** ** RpcRunner *)

(** The body shared by the multi-node calls ([call_volume_list],
    [call_vg_list], [call_version], ...):
    [c = Client(proc, args); c.connect_list(node_list); c.run();
     return c.getresult()]. *)
Definition multi_node_call (proc : string) (params : list pyval)
    (node_list : list string) : M (gmap string pyval) :=
  let c := Client_init proc (PList params) in
  c <- connect_list c node_list ;;
  c <- run c ;;
  ret (getresult c).

(** The body shared by the single-node calls ([call_bridges_exist],
    ...): [c.connect(node); c.run(); return c.getresult().get(node, False)]. *)
Definition single_node_call (proc : string) (params : list pyval)
    (n : string) : M pyval :=
  let c := Client_init proc (PList params) in
  c <- connect c n ;;
  c <- run c ;;
  ret (default (PBool false) (getresult c !! n)).

Definition call_vg_list (node_list : list string) : M (gmap string pyval) :=
  multi_node_call "vg_list" [] node_list.

Definition call_version (node_list : list string) : M (gmap string pyval) :=
  multi_node_call "version" [] node_list.

Definition call_bridges_exist (n : string) (bridges_list : pyval) : M pyval :=
  single_node_call "bridges_exist" [bridges_list] n.

(** Iterating over a Python value, as the list comprehension of
    [call_os_diagnose] does: the elements of a list, the keys of a
    dictionary, the characters of a string; anything else raises
    [TypeError]. *)
Definition py_iter (v : pyval) : res (list pyval) :=
  match v with
  | PList l => Ret l
  | PDict kvs => Ret (PStr <$> kvs.*1)
  | PStr s => Ret ((λ a, PStr (String a EmptyString)) <$> String.list_ascii_of_string s)
  | _ => Raise TypeError
  end.

Fixpoint res_mapM {A B} (f : A → res B) (l : list A) : res (list B) :=
  match l with
  | [] => Ret []
  | x :: xs =>
      res_bind (f x) (λ y, res_bind (res_mapM f xs) (λ ys, Ret (y :: ys)))
  end.

(** One round of the loop of [call_os_diagnose]. *)
Definition os_diagnose_entry (r : pyval) : res (list OS) :=
  if truthy r then res_bind (py_iter r) (res_mapM OS_FromDict)
  else Ret [].

(** The loop over the node names of [result]; [names] are keys of
    [result], so [result[node_name]] is there. *)
Fixpoint os_diagnose_loop (result : gmap string pyval)
    (new_result : gmap string (list OS)) (names : list string)
  : res (gmap string (list OS)) :=
  match names with
  | [] => Ret new_result
  | node_name :: rest =>
      res_bind (os_diagnose_entry (default PNone (result !! node_name)))
        (λ nr, os_diagnose_loop result (<[node_name := nr]> new_result) rest)
  end.

(** [RpcRunner.call_os_diagnose(self, node_list)] *)
Definition call_os_diagnose (node_list : list string)
  : M (gmap string (list OS)) :=
  result <- multi_node_call "os_diagnose" [] node_list ;;
  lift (os_diagnose_loop result ∅ (items result).*1).
End Rpc.

(** ** A reference implementation of the imports *)

(** The theorems below hold for every implementation of [Imports].  To
    run the code on concrete payloads, the imports are instantiated by
    the following functions. *)

Module Reference.

Definition code (a : ascii) : Z := Z.of_N (Ascii.N_of_ascii a).

(** C's [isspace]: space, \t, \n, \v, \f, \r. *)
Definition is_space (a : ascii) : bool :=
  (code a =? 32) || ((9 <=? code a) && (code a <=? 13)).

Definition digit (a : ascii) : option Z :=
  if (48 <=? code a) && (code a <=? 57) then Some (code a - 48) else None.

Fixpoint skip_space (s : list ascii) : list ascii :=
  match s with
  | a :: r => if is_space a then skip_space r else s
  | [] => []
  end.

(** The longest run of decimal digits at the head of [s], with the
    number it denotes after [acc]. *)
Fixpoint scan_digits (acc : Z) (s : list ascii) : Z * list ascii :=
  match s with
  | a :: r =>
      match digit a with
      | Some d => scan_digits (10 * acc + d) r
      | None => (acc, s)
      end
  | [] => (acc, [])
  end.

Definition starts_with_digit (s : list ascii) : bool :=
  match s with
  | a :: _ => bool_decide (is_Some (digit a))
  | [] => false
  end.

(** Python 2's [int(s)] for a byte string in base 10: white space, an
    optional sign, white space again (accepted by Python 2), at least
    one digit, white space, end of string. *)
Definition int_of_str (s : string) : res Z :=
  let s0 := skip_space (String.list_ascii_of_string s) in
  let '(sign, s1) :=
    match s0 with
    | a :: r => if code a =? 45 then (-1, r)
                else if code a =? 43 then (1, r) else (1, s0)
    | [] => (1, s0)
    end in
  let s2 := skip_space s1 in
  if starts_with_digit s2 then
    let '(n, s3) := scan_digits 0 s2 in
    match skip_space s3 with
    | [] => Ret (sign * n)
    | _ => Raise ValueError
    end
  else Raise ValueError.

(** *** JSON, without floating point *)

(** The decoder covers null, booleans, integers, ASCII strings with the
    two-character escapes, lists and objects.  A number with a fraction
    or an exponent decodes to a float and a unicode escape to a
    character outside ASCII, neither of which is a [pyval]: such
    payloads are outside the fragment, the decoder refuses them, and no
    statement below is made at one of them. *)

(** JSON white space: space, \t, \n, \r. *)
Definition is_json_ws (a : ascii) : bool :=
  (code a =? 32) || (code a =? 9) || (code a =? 10) || (code a =? 13).

Fixpoint skip_ws (s : list ascii) : list ascii :=
  match s with
  | a :: r => if is_json_ws a then skip_ws r else s
  | [] => []
  end.

(** [after lit s]: the rest of [s] behind the literal [lit]. *)
Fixpoint after (lit s : list ascii) : option (list ascii) :=
  match lit, s with
  | [], _ => Some s
  | a :: lit', b :: s' => if Ascii.eqb a b then after lit' s' else None
  | _ :: _, [] => None
  end.

Definition chr (n : Z) : ascii := Ascii.ascii_of_N (Z.to_N n).

(** The body of a string behind its opening quote, up to the closing
    one.  The two-character escapes (quote, backslash, slash, b, f, n,
    r, t) are decoded; a control character that is not escaped is
    refused; a unicode escape is outside the fragment. *)
Fixpoint scan_string (acc : list ascii) (s : list ascii)
  : option (string * list ascii) :=
  match s with
  | [] => None
  | a :: r =>
      if code a =? 34 then Some (String.string_of_list_ascii (rev acc), r)
      else if code a <? 32 then None
      else if code a =? 92 then
        match r with
        | e :: r' =>
            let c := code e in
            let unescaped :=
              if c =? 34 then Some (chr 34)
              else if c =? 92 then Some (chr 92)
              else if c =? 47 then Some (chr 47)
              else if c =? 98 then Some (chr 8)
              else if c =? 102 then Some (chr 12)
              else if c =? 110 then Some (chr 10)
              else if c =? 114 then Some (chr 13)
              else if c =? 116 then Some (chr 9)
              else None in
            match unescaped with
            | Some u => scan_string (u :: acc) r'
            | None => None
            end
        | [] => None
        end
      else scan_string (a :: acc) r
  end.

(** An integer literal: an optional minus sign, then either a single
    zero or a digit run that does not start with zero; not followed by
    a fraction or an exponent (those denote floats, outside the
    fragment). *)
Definition scan_int (s : list ascii) : option (pyval * list ascii) :=
  let '(sign, s1) :=
    match s with
    | a :: r => if code a =? 45 then (-1, r) else (1, s)
    | [] => (1, s)
    end in
  match s1 with
  | a :: r =>
      match digit a with
      | Some d =>
          let '(n, rest) := if d =? 0 then (0, r) else scan_digits 0 s1 in
          match rest with
          | b :: _ =>
              if (code b =? 46) || (code b =? 101) || (code b =? 69)
              then None else Some (PInt (sign * n), rest)
          | [] => Some (PInt (sign * n), rest)
          end
      | None => None
      end
  | [] => None
  end.

(** [d[k] = v] on the items of a dictionary: a key that is there
    already keeps its place and takes the new value. *)
Fixpoint dict_set (k : string) (v : pyval) (kvs : list (string * pyval))
  : list (string * pyval) :=
  match kvs with
  | [] => [(k, v)]
  | (k', v') :: rest =>
      if String.eqb k' k then (k', v) :: rest
      else (k', v') :: dict_set k v rest
  end.

Fixpoint parse_value (fuel : nat) (s : list ascii)
  : option (pyval * list ascii) :=
  match fuel with
  | O => None
  | S fuel =>
      match s with
      | [] => None
      | a :: r =>
          let c := code a in
          if c =? 110 then r' ← after (String.list_ascii_of_string "ull") r; Some (PNone, r')
          else if c =? 116 then r' ← after (String.list_ascii_of_string "rue") r; Some (PBool true, r')
          else if c =? 102 then r' ← after (String.list_ascii_of_string "alse") r; Some (PBool false, r')
          else if c =? 34 then '(str, r') ← scan_string [] r; Some (PStr str, r')
          else if c =? 91 then
            match skip_ws r with
            | b :: r' => if code b =? 93 then Some (PList [], r')
                         else parse_elements fuel [] (b :: r')
            | [] => None
            end
          else if c =? 123 then
            match skip_ws r with
            | b :: r' => if code b =? 125 then Some (PDict [], r')
                         else parse_members fuel [] (b :: r')
            | [] => None
            end
          else scan_int s
      end
  end
with parse_elements (fuel : nat) (acc : list pyval) (s : list ascii)
  : option (pyval * list ascii) :=
  match fuel with
  | O => None
  | S fuel =>
      '(v, r) ← parse_value fuel s;
      match skip_ws r with
      | b :: r' =>
          if code b =? 44 then parse_elements fuel (v :: acc) (skip_ws r')
          else if code b =? 93 then Some (PList (rev (v :: acc)), r')
          else None
      | [] => None
      end
  end
with parse_members (fuel : nat) (acc : list (string * pyval)) (s : list ascii)
  : option (pyval * list ascii) :=
  match fuel with
  | O => None
  | S fuel =>
      match s with
      | q :: r0 =>
          if code q =? 34 then
            '(k, r1) ← scan_string [] r0;
            match skip_ws r1 with
            | colon :: r2 =>
                if code colon =? 58 then
                  '(v, r) ← parse_value fuel (skip_ws r2);
                  match skip_ws r with
                  | b :: r' =>
                      if code b =? 44
                      then parse_members fuel (dict_set k v acc) (skip_ws r')
                      else if code b =? 125
                      then Some (PDict (dict_set k v acc), r')
                      else None
                  | [] => None
                  end
                else None
            | [] => None
            end
          else None
      | [] => None
      end
  end.

(** [simplejson.loads]: one value, white space around it, nothing
    else. *)
Definition json_loads (s : string) : res pyval :=
  let cs := String.list_ascii_of_string s in
  match parse_value (2 * length cs + 2) (skip_ws cs) with
  | Some (v, r) =>
      match skip_ws r with
      | [] => Ret v
      | _ => Raise ValueError
      end
  | None => Raise ValueError
  end.

Definition quote : string := String (chr 34) EmptyString.

Definition hex_digit (n : Z) : ascii :=
  if n <? 10 then chr (48 + n) else chr (87 + n).

(** One character of a string, escaped as [simplejson] does with
    [ensure_ascii]; the strings of the fragment are ASCII. *)
Definition escape_char (a : ascii) : string :=
  let c := code a in
  if c =? 34 then String (chr 92) quote
  else if c =? 92 then "\\"
  else if c =? 8 then "\b"
  else if c =? 12 then "\f"
  else if c =? 10 then "\n"
  else if c =? 13 then "\r"
  else if c =? 9 then "\t"
  else if (c <? 32) || (126 <? c) then
    "\u00" +:+ String (hex_digit (c / 16)) (String (hex_digit (c mod 16)) EmptyString)
  else String a EmptyString.

Definition json_string (s : string) : string :=
  quote
  +:+ String.concat EmptyString (escape_char <$> String.list_ascii_of_string s)
  +:+ quote.

(** [simplejson.dumps] with its default separators. *)
Fixpoint json_dumps (v : pyval) : string :=
  match v with
  | PNone => "null"
  | PBool true => "true"
  | PBool false => "false"
  | PInt z => pretty z
  | PStr s => json_string s
  | PList l => "[" +:+ String.concat ", " (json_dumps <$> l) +:+ "]"
  | PDict kvs =>
      "{" +:+ String.concat ", "
               ((λ kv, json_string kv.1 +:+ ": " +:+ json_dumps kv.2) <$> kvs)
      +:+ "}"
  end.

(** Stand-in for [objects.OS.FromDict]: an OS object is built from a
    dictionary and is represented by it. *)
Definition os_from_dict (v : pyval) : res pyval :=
  match v with
  | PDict _ => Ret v
  | _ => Raise TypeError
  end.

Definition imports : Imports :=
  {| dumps := json_dumps;
     loads := json_loads;
     py_int := int_of_str;
     GetNodeDaemonPort := 1811;
     GetNodeDaemonPassword := EmptyString;
     OS := pyval;
     OS_FromDict := os_from_dict;
     items := λ V, map_to_list;
     items_perm := λ V m, reflexivity _ |}.

End Reference.

(** ** Derived notions used in the statements *)

Section Derived.
Context `{Imports} (net : network).

(** The controller that [NodeController.__init__] builds for host [n]
    on connection [hc]. *)
Definition controller_of (n : string) (hc : nat) : NodeController :=
  MkNodeController n (bool_decide (is_Some (opening (net n hc)))) hc.

(** The calls that [NodeController.__init__] makes. *)
Definition open_events (parent : Client) (n : string) (hc : nat) : list event :=
  let connect_ev := EvConnect hc n (port parent) in
  let headers :=
    [EvPutRequest hc "PUT" ("/" +:+ procedure parent);
     EvPutHeader hc "Content-Length" (pretty (String.length (body parent)));
     EvEndHeaders hc] in
  let log := EvLog ("Error connecting to node " +:+ n) in
  match opening (net n hc) with
  | None => connect_ev :: headers ++ [EvSend hc (body parent)]
  | Some FaultConnect => [connect_ev; log]
  | Some FaultEndHeaders => connect_ev :: headers ++ [log]
  | Some FaultSend => connect_ev :: headers ++ [EvSend hc (body parent); log]
  end.

(** What awaiting a controller yields, and the calls it makes. *)
Definition outcome (c : NodeController) : res pyval :=
  (get_response net c world0).1.

Definition response_events (c : NodeController) : list event :=
  trace (get_response net c world0).2.

(** [self.nc] after [connect_list], the first connection being number
    [hc]. *)
Fixpoint nc_after (hc : nat) (node_list : list string)
    (m : gmap string NodeController) : gmap string NodeController :=
  match node_list with
  | [] => m
  | n :: rest => nc_after (S hc) rest (<[n := controller_of n hc]> m)
  end.

Fixpoint connect_events (parent : Client) (hc : nat) (node_list : list string)
  : list event :=
  match node_list with
  | [] => []
  | n :: rest => open_events parent n hc ++ connect_events parent (S hc) rest
  end.

(** [self.results] after the loop of [run], without the world. *)
Fixpoint collect (its : list (string * NodeController))
    (acc : gmap string pyval) : res (gmap string pyval) :=
  match its with
  | [] => Ret acc
  | (n, c) :: rest =>
      res_bind (outcome c) (λ v, collect rest (<[n := v]> acc))
  end.


(** An event that [get_response] can produce. *)
Definition awaits_only (e : event) : bool :=
  match e with
  | EvGetResponse _ | EvRead _ _ | EvLog _ => true
  | _ => false
  end.

(** The position of the last occurrence of [n] in [l]. *)
Fixpoint last_index (n : string) (l : list string) : option nat :=
  match l with
  | [] => None
  | x :: rest =>
      match last_index n rest with
      | Some i => Some (S i)
      | None => if String.eqb x n then Some 0%nat else None
      end
  end.

(** The entry of node [n] in the result of a fan-out call over
    [node_list] that returns, the first connection being number [hc]. *)
Definition entry_of (hc : nat) (node_list : list string) (n : string)
  : option pyval :=
  match last_index n node_list with
  | Some i =>
      match outcome (controller_of n (hc + i)) with
      | Ret v => Some v
      | Raise _ => None
      end
  | None => None
  end.
End Derived.

(** ** Concrete networks *)

Module Examples.

(** A read that fails only on a length that does not fit a C int, with
    [OverflowError]. *)
Definition read_within_c_int (amt : Z) : option exn :=
  if 2147483647 <? amt then Some OverflowError else None.

(** A response whose body arrives without a network fault. *)
Definition answered (st : Z) (cl : option string) (payload : string)
  : response :=
  Response st cl payload read_within_c_int.

Definition replying (st : Z) (cl : option string) (payload : string)
  : behaviour :=
  Behaviour None (Reply (answered st cl payload)).

Definition unreachable : behaviour :=
  Behaviour (Some FaultConnect) (NoReply SocketError).

(** A network given by a table of hosts; a host that is not listed is
    unreachable.  Every connection to a host behaves alike. *)
Fixpoint table (hosts : list (string * behaviour)) : network :=
  λ host hc,
    match hosts with
    | [] => unreachable
    | (h, b) :: rest => if String.eqb h host then b else table rest host hc
    end.

(** n1 answers the encoded value false; n2 is unreachable; n3 answers
    with status 500; n4 sends a Content-Length that is not a number; n5
    sends an empty body. *)
Definition net_overloaded : network :=
  table [("n1", replying 200 (Some "5") "false");
         ("n2", unreachable);
         ("n3", replying 500 (Some "5") "false");
         ("n4", replying 200 (Some "five") "false");
         ("n5", replying 200 (Some "0") EmptyString)].

(** Both nodes answer the encoded value true. *)
Definition net_all_fine : network :=
  table [("n1", replying 200 (Some "4") "true");
         ("n2", replying 200 (Some "4") "true")].

(** As [net_all_fine], except that the body of n2 is not valid JSON. *)
Definition net_one_malformed : network :=
  table [("n1", replying 200 (Some "4") "true");
         ("n2", replying 200 (Some "4") "tru!")].

(** As [net_all_fine], except that n2 accepts the request and resets
    the connection before it answers. *)
Definition net_one_reset : network :=
  table [("n1", replying 200 (Some "4") "true");
         ("n2", Behaviour None (NoReply SocketError))].

(** n1 answers a single byte that is not valid JSON. *)
Definition net_malformed : network :=
  table [("n1", replying 200 (Some "1") "{")].

(** n1 announces five bytes and delivers two before it closes. *)
Definition net_short : network :=
  table [("n1", replying 200 (Some "5") "12")].

(** n1 announces two bytes and delivers five. *)
Definition net_long : network :=
  table [("n1", replying 200 (Some "2") "12345")].

(** The first connection to n1 is answered with 1, every later one
    with 2. *)
Definition net_by_connection : network :=
  λ host hc,
    if String.eqb host "n1" then
      if (hc =? 0)%nat then replying 200 (Some "1") "1"
      else replying 200 (Some "1") "2"
    else unreachable.

(** n1 is unreachable, n2 reports an empty list of OS definitions. *)
Definition net_os : network :=
  table [("n1", unreachable);
         ("n2", replying 200 (Some "2") "[]")].

(** Scenario A of the specification: n1 answers a volume group map, n2
    is unreachable. *)
Definition net_scenario_a : network :=
  table [("n1", replying 200 (Some "13") (Reference.json_dumps (PDict [("vg0", PInt 1024)])))].

End Examples.

(** ** More of RpcRunner *)

(** [utils.CheckDict] is not part of this module either. *)
Class UtilsImports : Type := {
  (** [utils.CheckDict(target, template, logname)]: the items of
      [target] as the call leaves them, and the records it logs *)
  CheckDict :
    list (string * pyval) → list (string * pyval) → string →
    list (string * pyval) * list string
}.

Section RpcMore.
Context `{Imports} `{UtilsImports} (net : network).

(** [isinstance(v, dict)] *)
Definition is_dict (v : pyval) : bool :=
  match v with
  | PDict _ => true
  | _ => false
  end.

(** [RpcRunner.call_os_get(self, node, name)]: an OS object when the
    answer is a dictionary, the answer itself otherwise. *)
Definition call_os_get (n : string) (name : pyval) : M (OS + pyval) :=
  result <- single_node_call net "os_get" [name] n ;;
  if is_dict result then
    os <- lift (OS_FromDict result) ;;
    ret (inl os)
  else ret (inr result).

(** The template that [call_node_info] hands to [utils.CheckDict]. *)
Definition node_info_template : list (string * pyval) :=
  [("memory_total", PStr "-");
   ("memory_dom0", PStr "-");
   ("memory_free", PStr "-");
   ("vg_size", PStr "node_unreachable");
   ("vg_free", PStr "-")].

(** [utils.CheckDict(ret, template, "call_node_info")], its log records
    going to the world. *)
Definition check_dict (target : list (string * pyval))
  : M (list (string * pyval)) :=
  λ w, let '(target', logged) :=
         CheckDict target node_info_template "call_node_info" in
       (Ret target', World (trace w ++ (EvLog <$> logged)) (opened w)).

(** The loop of [call_node_info].  [ret] is the very dictionary that
    [retux] holds, so what [CheckDict] adds to it shows in [retux];
    when the answer is not a dictionary, [ret] is rebound to a fresh
    empty one and [retux] is not touched. *)
Fixpoint node_info_loop (retux : gmap string pyval) (names : list string)
  : M (gmap string pyval) :=
  match names with
  | [] => ret retux
  | node_name :: rest =>
      match default (PBool false) (retux !! node_name) with
      | PDict kvs =>
          kvs' <- check_dict kvs ;;
          node_info_loop (<[node_name := PDict kvs']> retux) rest
      | _ =>
          emit (EvLog ("could not connect to node " +:+ node_name)) ;;>
          check_dict [] ;;>
          node_info_loop retux rest
      end
  end.

(** [RpcRunner.call_node_info(self, node_list, vg_name, hypervisor_type)] *)
Definition call_node_info (node_list : list string)
    (vg_name hypervisor_type : pyval) : M (gmap string pyval) :=
  retux <- multi_node_call net "node_info" [vg_name; hypervisor_type]
             node_list ;;
  node_info_loop retux (items retux).*1.

(** All events of a list concern connection [hc], or are log records. *)
Definition about_conn (hc : nat) (e : event) : bool :=
  match e with
  | EvGetResponse c | EvRead c _ => (c =? hc)%nat
  | EvLog _ => true
  | _ => false
  end.

(** A request line or header, if [e] is one, is the one of procedure
    [proc] with body [data]. *)
Definition framed (proc data : string) (e : event) : bool :=
  match e with
  | EvPutRequest _ method url =>
      String.eqb method "PUT" && String.eqb url ("/" +:+ proc)
  | EvPutHeader _ header value =>
      String.eqb header "Content-Length"
      && String.eqb value (pretty (String.length data))
  | EvSend _ d => String.eqb d data
  | _ => true
  end.

(** The number of calls that [NodeController.__init__] completes or
    starts before the fault [f] strikes. *)
Definition calls_until (f : open_fault) : nat :=
  match f with
  | FaultConnect => 1
  | FaultEndHeaders => 4
  | FaultSend => 5
  end.

(** The calls of [NodeController.__init__] when nothing fails. *)
Definition request_events (parent : Client) (n : string) (hc : nat)
  : list event :=
  [EvConnect hc n (port parent);
   EvPutRequest hc "PUT" ("/" +:+ procedure parent);
   EvPutHeader hc "Content-Length" (pretty (String.length (body parent)));
   EvEndHeaders hc;
   EvSend hc (body parent)].
End RpcMore.

Module MoreExamples.

(** Stand-in for [utils.CheckDict]: the keys of the template that the
    target lacks are added with the values of the template, and their
    names are logged when there are any. *)
Definition check_dict_ref (target template : list (string * pyval))
    (logname : string) : list (string * pyval) * list string :=
  let missing :=
    filter (λ kv, bool_decide (kv.1 ∉ target.*1)) template in
  (target ++ missing,
   match missing with
   | [] => []
   | _ => [logname +:+ " missing keys " +:+ String.concat ", " missing.*1]
   end).

Definition utils : UtilsImports := {| CheckDict := check_dict_ref |}.

(** n1 answers a dictionary with one of the keys of the node
    information, n2 is unreachable, n3 answers a list. *)
Definition net_node_info : network :=
  Examples.table
    [("n1", Examples.replying 200 (Some "17")
              (Reference.json_dumps (PDict [("vg_size", PInt 1024)])));
     ("n3", Examples.replying 200 (Some "3") "[1]")].

(** n1 answers the encoded value true. *)
Definition net_true : network :=
  Examples.table [("n1", Examples.replying 200 (Some "4") "true")].

(** n1 accepts the request and resets the connection. *)
Definition net_reset : network :=
  Examples.table [("n1", Behaviour None (NoReply SocketError))].

(** n1 answers true and announces 10^20 bytes. *)
Definition net_huge_length : network :=
  Examples.table
    [("n1", Examples.replying 200 (Some "100000000000000000000") "true")].

(** n1 answers true without a Content-Length header. *)
Definition net_no_length : network :=
  Examples.table [("n1", Examples.replying 200 None "true")].

(** The connection is lost while the body is sent. *)
Definition net_send_fault : network :=
  λ _ _, Behaviour (Some FaultSend) (NoReply SocketError).

End MoreExamples.

(** ** Lemmas on the embedding *)

#[local] Set Warnings "-clear-no-such-hyp".

Section Lemmas.
Context `{Imports} (net : network).

Lemma world_eta (w : world) : World (trace w) (opened w) = w.
Proof. by destruct w. Qed.

Lemma NodeController_init_spec (parent : Client) (n : string) (w : world) :
  NodeController_init net parent n w
  = (Ret (controller_of net n (opened w)),
     World (trace w ++ open_events net parent n (opened w)) (S (opened w))).
Proof.
  unfold NodeController_init, controller_of, open_events, except_socket_error,
    HTTPConnection, hc_connect, hc_putrequest, hc_putheader, hc_endheaders,
    hc_send, emit, bind, ret, raise.
  destruct w as [tr k]; simpl.
  destruct (opening (net n k)) as [[]|] eqn:E; simpl;
    repeat rewrite <- app_assoc; simpl; reflexivity.
Qed.

Lemma get_response_spec (c : NodeController) (w : world) :
  get_response net c w
  = (outcome net c, World (trace w ++ response_events net c) (opened w)).
Proof.
  unfold outcome, response_events, get_response, hc_getresponse, resp_read,
    emit, bind, ret, raise, lift.
  destruct w as [tr k]; simpl.
  destruct (failed c); simpl; [by rewrite app_nil_r|].
  destruct (answer (net (node c) (http_conn c))) as [r|e]; simpl; [|done].
  destruct (negb (status r =? 200)); simpl; [done|].
  destruct (py_int _) as [len|[]]; simpl; try done.
  destruct (len =? 0); simpl; [by rewrite <- app_assoc|].
  destruct (read_fault r len); simpl; [by rewrite <- app_assoc|].
  destruct (loads _); simpl; by rewrite <- app_assoc.
Qed.

Lemma connect_spec (self : Client) (n : string) (w : world) :
  connect net self n w
  = (Ret (set_nc self (<[n := controller_of net n (opened w)]> (nc self))),
     World (trace w ++ open_events net self n (opened w)) (S (opened w))).
Proof.
  unfold connect, bind. by rewrite NodeController_init_spec.
Qed.

Lemma open_events_set_nc (self : Client) m n hc :
  open_events net (set_nc self m) n hc = open_events net self n hc.
Proof. done. Qed.

Lemma connect_events_set_nc (self : Client) m hc l :
  connect_events net (set_nc self m) hc l = connect_events net self hc l.
Proof. revert hc. induction l as [|n l IH]; intros hc; simpl; [done|]. by rewrite IH. Qed.

Lemma connect_list_spec (self : Client) (node_list : list string) (w : world) :
  connect_list net self node_list w
  = (Ret (set_nc self (nc_after net (opened w) node_list (nc self))),
     World (trace w ++ connect_events net self (opened w) node_list)
           (opened w + length node_list)%nat).
Proof.
  revert self w. induction node_list as [|n l IH]; intros self w; simpl.
  - unfold ret. rewrite app_nil_r, Nat.add_0_r, world_eta. by destruct self.
  - unfold bind. rewrite connect_spec, IH. simpl.
    rewrite connect_events_set_nc, <- app_assoc.
    do 3 f_equal. lia.
Qed.

Lemma run_loop_spec (self : Client) (its : list (string * NodeController))
    (w : world) :
  (run_loop net self its w).1
  = res_bind (collect net its (results self)) (λ m, Ret (set_results self m)).
Proof.
  revert self w. induction its as [|[n c] its IH]; intros self w; simpl.
  - by destruct self.
  - unfold bind. rewrite get_response_spec.
    destruct (outcome net c) as [v|e]; simpl; [|done].
    by rewrite IH.
Qed.

(** The connection counter is not touched by [run]. *)
Lemma run_loop_opened (self : Client) its (w : world) :
  opened (run_loop net self its w).2 = opened w.
Proof.
  revert self w. induction its as [|[n c] its IH]; intros self w; simpl; [done|].
  unfold bind. rewrite get_response_spec.
  destruct (outcome net c) as [v|e]; simpl; [|done].
  by rewrite IH.
Qed.

Lemma collect_Ret_dom its acc m :
  collect net its acc = Ret m → dom m = dom acc ∪ list_to_set its.*1.
Proof.
  revert acc. induction its as [|[n c] its IH]; intros acc; simpl.
  - intros [= <-]. set_solver.
  - destruct (outcome net c) as [v|e]; simpl; [|done].
    intros Hm. rewrite (IH _ Hm), dom_insert_L. set_solver.
Qed.

Lemma collect_Ret_lookup_other its acc m k :
  collect net its acc = Ret m → k ∉ its.*1 → m !! k = acc !! k.
Proof.
  revert acc. induction its as [|[n c] its IH]; intros acc; simpl.
  - by intros [= <-].
  - destruct (outcome net c) as [v|e]; simpl; [|done].
    intros Hm Hk. apply not_elem_of_cons in Hk as [Hkn Hk].
    rewrite (IH _ Hm Hk). by rewrite lookup_insert_ne.
Qed.

Lemma collect_Ret_lookup its acc m n c :
  collect net its acc = Ret m → NoDup its.*1 → (n, c) ∈ its →
  ∃ v, outcome net c = Ret v ∧ m !! n = Some v.
Proof.
  revert acc. induction its as [|[n' c'] its IH]; intros acc; simpl.
  - intros _ _ Hin. by apply elem_of_nil in Hin.
  - destruct (outcome net c') as [v|e] eqn:Ho; simpl; [|done].
    intros Hm Hnd Hin. apply NoDup_cons in Hnd as [Hn' Hnd].
    apply elem_of_cons in Hin as [[= -> ->]|Hin].
    + exists v. split; [done|].
      rewrite (collect_Ret_lookup_other _ _ _ _ Hm Hn').
      by rewrite lookup_insert_eq.
    + by apply (IH _ Hm Hnd Hin).
Qed.

Lemma collect_all_Ret its acc :
  Forall (λ it, ∃ v, outcome net it.2 = Ret v) its →
  ∃ m, collect net its acc = Ret m.
Proof.
  revert acc. induction its as [|[n c] its IH]; intros acc Hall; simpl.
  - by eexists.
  - apply Forall_cons in Hall as [[v Hv] Hall]. simpl in Hv.
    rewrite Hv. simpl. by apply IH.
Qed.

Lemma collect_Raise its acc n c e :
  (n, c) ∈ its → outcome net c = Raise e → ∃ e', collect net its acc = Raise e'.
Proof.
  revert acc. induction its as [|[n' c'] its IH]; intros acc Hin Ho; simpl.
  - by apply elem_of_nil in Hin.
  - apply elem_of_cons in Hin as [[= <- <-]|Hin].
    + rewrite Ho. by eexists.
    + destruct (outcome net c'); simpl; [by eapply IH|by eexists].
Qed.

Lemma items_NoDup {V} (m : gmap string V) : NoDup (items m).*1.
Proof. rewrite (items_perm V m). apply NoDup_fst_map_to_list. Qed.

Lemma elem_of_items {V} (m : gmap string V) k v :
  (k, v) ∈ items m ↔ m !! k = Some v.
Proof. rewrite (items_perm V m). apply elem_of_map_to_list. Qed.

Lemma items_keys {V} (m : gmap string V) :
  list_to_set (C:=gset string) (items m).*1 = dom m.
Proof.
  apply set_eq. intros k. rewrite elem_of_list_to_set, elem_of_dom, list_elem_of_fmap.
  split.
  - intros [[k' v] [-> Hin]]. apply elem_of_items in Hin. by eexists.
  - intros [v Hv]. exists (k, v). split; [done|]. by apply elem_of_items.
Qed.

Lemma dom_nc_after hc l m :
  dom (nc_after net hc l m) = dom m ∪ list_to_set l.
Proof.
  revert hc m. induction l as [|n l IH]; intros hc m; simpl.
  - set_solver.
  - rewrite IH, dom_insert_L. set_solver.
Qed.
End Lemmas.

(** ** Opening and awaiting one node call *)

Section NodeCall.
Context `{Imports} (net : network).

(** C3.  A [socket.error] raised while the connection is opened or the
    request is sent, at whatever stage, does not leave
    [NodeController.__init__]: the constructor returns a controller
    whose [failed] flag is set.  [get_response] on such a controller
    returns the failure value [False] at once and leaves the world as
    it is: no call is made on the connection. *)
Theorem C3_open_failure_is_captured
    (parent : Client) (n : string) (w : world) (f : open_fault) :
  opening (net n (opened w)) = Some f →
  ∃ c w',
    NodeController_init net parent n w = (Ret c, w')
    ∧ failed c = true
    ∧ ∀ w2, get_response net c w2 = (Ret (PBool false), w2).
Proof.
  intros Hf. rewrite NodeController_init_spec.
  eexists _, _. split; [reflexivity|].
  unfold controller_of. rewrite Hf. simpl.
  split; [done|].
  intros w2. by unfold get_response.
Qed.

(** C6.  When the response declares a content length of zero,
    [get_response] returns the failure value [False]; the body is
    neither read nor decoded, whatever the peer delivered.  The only
    call made is [getresponse], and the zero-length reply is logged
    when the status is 200. *)
Theorem C6_zero_length_is_failure
    (c : NodeController) (w : world) (r : response) :
  failed c = false →
  answer (net (node c) (http_conn c)) = Reply r →
  py_int (getheader_content_length r "0") = Ret 0 →
  get_response net c w
  = (Ret (PBool false),
     World (trace w ++ EvGetResponse (http_conn c) ::
              if status r =? 200
              then [EvLog ("Zero-length reply from node " +:+ node c)]
              else [])
           (opened w)).
Proof.
  intros Hf Ha Hlen.
  unfold get_response, hc_getresponse, emit, bind, ret.
  rewrite Hf, Ha. simpl.
  destruct (status r =? 200); simpl; [|done].
  rewrite Hlen. simpl. by rewrite <- app_assoc.
Qed.

(** C5, as the code has it.  For a response with status 200 and a
    declared content length [len] other than zero on which [read(len)]
    does not raise, [get_response] hands to the decoder the bytes that
    [read] returns: the first [len] bytes of what the peer delivered
    when [len] is positive, fewer when fewer were delivered, and all of
    them when [len] is negative.  When these bytes are valid encoded
    data, their decoded value is returned.  The number of bytes read is
    not compared with [len]. *)
Theorem C5_bytes_read_are_decoded
    (c : NodeController) (w : world) (r : response) (len : Z) (v : pyval) :
  failed c = false →
  answer (net (node c) (http_conn c)) = Reply r →
  status r = 200 →
  py_int (getheader_content_length r "0") = Ret len →
  len ≠ 0 →
  read_fault r len = None →
  loads (if len <? 0 then avail r
         else String.substring 0 (Z.to_nat len) (avail r)) = Ret v →
  get_response net c w
  = (Ret v,
     World (trace w ++ [EvGetResponse (http_conn c); EvRead (http_conn c) len])
           (opened w)).
Proof.
  intros Hf Ha Hst Hlen Hnz Hrd Hv.
  unfold get_response, hc_getresponse, resp_read, emit, bind, ret, lift.
  rewrite Hf, Ha, Hst. simpl. rewrite Hlen.
  apply Z.eqb_neq in Hnz. rewrite Hnz. simpl. rewrite Hrd.
  rewrite Hv. by rewrite <- app_assoc.
Qed.

(** A payload that [simplejson.loads] refuses makes [get_response]
    raise what [loads] raised. *)
Lemma get_response_decode_raises
    (c : NodeController) (w : world) (r : response) (len : Z) (e : exn) :
  failed c = false →
  answer (net (node c) (http_conn c)) = Reply r →
  status r = 200 →
  py_int (getheader_content_length r "0") = Ret len →
  len ≠ 0 →
  read_fault r len = None →
  loads (if len <? 0 then avail r
         else String.substring 0 (Z.to_nat len) (avail r)) = Raise e →
  (get_response net c w).1 = Raise e.
Proof.
  intros Hf Ha Hst Hlen Hnz Hrd Hv.
  unfold get_response, hc_getresponse, resp_read, emit, bind, ret, lift.
  rewrite Hf, Ha, Hst. simpl. rewrite Hlen.
  apply Z.eqb_neq in Hnz. rewrite Hnz. simpl. rewrite Hrd.
  by rewrite Hv.
Qed.

(** What [get_response] returns depends on the behaviour of its own
    connection only. *)
Lemma outcome_ext (net' : network) (c : NodeController) :
  net (node c) (http_conn c) = net' (node c) (http_conn c) →
  outcome net c = outcome net' c.
Proof.
  intros Hnet. unfold outcome, get_response, hc_getresponse.
  by rewrite Hnet.
Qed.
End NodeCall.

(** ** The fan-out call *)

Section FanOut.
Context `{Imports} (net : network).

Lemma bind_ret_fst {A B} (m : M A) (f : A → B) (w : world) :
  (bind m (λ a, ret (f a)) w).1 = res_bind (m w).1 (λ a, Ret (f a)).
Proof. unfold bind, ret. by destruct (m w) as [[a|e] w']. Qed.

Lemma items_empty {V} : items (∅ : gmap string V) = [].
Proof.
  apply Permutation_nil_r. rewrite (items_perm V ∅). by rewrite map_to_list_empty.
Qed.

Lemma last_index_None n l : last_index n l = None ↔ n ∉ l.
Proof.
  induction l as [|x l IH]; simpl.
  - split; [intros _; apply not_elem_of_nil|done].
  - rewrite not_elem_of_cons. destruct (last_index n l) as [i|].
    + split; [done|]. intros [_ Hn]. by apply IH in Hn.
    + destruct (String.eqb_spec x n) as [->|Hne].
      * split; [done|]. by intros [? _].
      * split; [|done]. intros _. split; [congruence|]. by apply IH.
Qed.

Lemma last_index_lookup n l i : last_index n l = Some i → l !! i = Some n.
Proof.
  revert i. induction l as [|x l IH]; intros i; simpl; [done|].
  destruct (last_index n l) as [j|].
  - intros [= <-]. by apply IH.
  - destruct (String.eqb_spec x n) as [->|]; [|done]. by intros [= <-].
Qed.

Lemma nc_after_lookup hc l m n :
  nc_after net hc l m !! n
  = match last_index n l with
    | Some i => Some (controller_of net n (hc + i))
    | None => m !! n
    end.
Proof.
  revert hc m. induction l as [|x l IH]; intros hc m; simpl; [done|].
  rewrite IH. destruct (last_index n l) as [i|].
  - do 2 f_equal. lia.
  - destruct (String.eqb_spec x n) as [->|Hne].
    + rewrite lookup_insert_eq. do 2 f_equal. lia.
    + by rewrite lookup_insert_ne.
Qed.

(** What a fan-out call returns, without the world. *)
Lemma multi_node_call_fst proc params node_list w :
  (multi_node_call net proc params node_list w).1
  = collect net (items (nc_after net (opened w) node_list ∅)) ∅.
Proof.
  unfold multi_node_call. unfold bind at 1. rewrite connect_list_spec.
  rewrite bind_ret_fst. unfold run. rewrite run_loop_spec. simpl.
  by destruct (collect _ _ _).
Qed.

(** A fan-out call that returns has, for every node, the entry
    [entry_of]. *)
Lemma multi_node_call_lookup proc params node_list w m w' n :
  multi_node_call net proc params node_list w = (Ret m, w') →
  m !! n = entry_of net (opened w) node_list n.
Proof.
  intros Hcall.
  assert (collect net (items (nc_after net (opened w) node_list ∅)) ∅ = Ret m)
    as Hcol by (by rewrite <- (multi_node_call_fst proc params), Hcall).
  unfold entry_of.
  pose proof (nc_after_lookup (opened w) node_list ∅ n) as Hnc.
  destruct (last_index n node_list) as [i|].
  - apply elem_of_items in Hnc.
    destruct (collect_Ret_lookup _ _ _ _ _ _ Hcol (items_NoDup _) Hnc)
      as (v & -> & Hv).
    done.
  - rewrite lookup_empty in Hnc.
    rewrite (collect_Ret_lookup_other _ _ _ _ n Hcol); [done|].
    intros Hin. apply list_elem_of_fmap in Hin as [[k c] [-> Hin]].
    apply elem_of_items in Hin. simpl in *. congruence.
Qed.

(** The key set of a fan-out call that returns is the set of the
    nodes asked. *)
Lemma multi_node_call_keys proc params node_list w m w' :
  multi_node_call net proc params node_list w = (Ret m, w') →
  dom m = list_to_set node_list.
Proof.
  intros Hcall.
  assert (collect net (items (nc_after net (opened w) node_list ∅)) ∅ = Ret m)
    as Hcol by (by rewrite <- (multi_node_call_fst proc params), Hcall).
  rewrite (collect_Ret_dom _ _ _ _ Hcol), items_keys, dom_nc_after.
  set_solver.
Qed.

(** Over no node at all, the call returns the empty dictionary and
    the world is untouched. *)
Lemma multi_node_call_nil proc params w :
  multi_node_call net proc params [] w = (Ret ∅, w).
Proof.
  unfold multi_node_call, run, bind, ret. simpl.
  by rewrite items_empty.
Qed.

(** The call returns as soon as awaiting every controller returns. *)
Lemma multi_node_call_returns proc params node_list w :
  (∀ n hc, ∃ v, outcome net (controller_of net n hc) = Ret v) →
  ∃ m, (multi_node_call net proc params node_list w).1 = Ret m.
Proof.
  intros Hall. rewrite multi_node_call_fst. apply collect_all_Ret.
  apply Forall_forall. intros [n c] Hin. simpl.
  apply elem_of_items in Hin. rewrite nc_after_lookup in Hin.
  destruct (last_index n node_list); [|by rewrite lookup_empty in Hin].
  injection Hin as <-. apply Hall.
Qed.

(** One node whose awaiting raises makes the whole call raise. *)
Lemma multi_node_call_raises proc params node_list w n i e :
  last_index n node_list = Some i →
  outcome net (controller_of net n (opened w + i)) = Raise e →
  ∃ e', (multi_node_call net proc params node_list w).1 = Raise e'.
Proof.
  intros Hi Ho. rewrite multi_node_call_fst.
  eapply collect_Raise; [|exact Ho].
  apply elem_of_items. by rewrite nc_after_lookup, Hi.
Qed.

End FanOut.

Section Isolation.
Context `{Imports} (net net' : network).

(** Isolation, for calls that return: when two networks differ at
    node [n] only, the results differ at [n] only. *)
Lemma multi_node_call_isolated proc params node_list w
    m w1 m' w1' n :
  (∀ k hc, k ≠ n → net k hc = net' k hc) →
  multi_node_call net proc params node_list w = (Ret m, w1) →
  multi_node_call net' proc params node_list w = (Ret m', w1') →
  ∀ k, k ≠ n → m !! k = m' !! k.
Proof.
  intros Hnet Hm Hm' k Hk.
  rewrite (multi_node_call_lookup net _ _ _ _ _ _ k Hm).
  rewrite (multi_node_call_lookup net' _ _ _ _ _ _ k Hm').
  unfold entry_of. destruct (last_index k node_list) as [i|]; [|done].
  assert (controller_of net k (opened w + i) = controller_of net' k (opened w + i))
    as <- by (unfold controller_of; by rewrite (Hnet k _ Hk)).
  rewrite (outcome_ext net net'); [done|]. simpl. by apply Hnet.
Qed.
End Isolation.

(** ** What a fan-out call does to the world *)

Section Traces.
Context `{Imports} (net : network).

Lemma response_events_awaits (c : NodeController) :
  forallb awaits_only (response_events net c) = true.
Proof.
  unfold response_events, get_response, hc_getresponse, resp_read,
    emit, bind, ret, raise, lift.
  destruct (failed c); simpl; [done|].
  destruct (answer (net (node c) (http_conn c))) as [r|e]; simpl; [|done].
  destruct (negb (status r =? 200)); simpl; [done|].
  destruct (py_int _) as [len|[]]; simpl; try done.
  destruct (len =? 0); simpl; [done|].
  destruct (read_fault r len); simpl; [done|].
  by destruct (loads _).
Qed.

Lemma run_loop_world (self : Client) its (w : world) :
  ∃ evs, (run_loop net self its w).2 = World (trace w ++ evs) (opened w)
         ∧ forallb awaits_only evs = true.
Proof.
  revert self w. induction its as [|[n c] its IH]; intros self w; simpl.
  - exists []. by rewrite app_nil_r, world_eta.
  - unfold bind. rewrite get_response_spec.
    destruct (outcome net c) as [v|e]; simpl.
    + destruct (IH (set_results self (<[n:=v]> (results self)))
                  (World (trace w ++ response_events net c) (opened w)))
        as (evs & -> & Hevs). simpl.
      exists (response_events net c ++ evs). rewrite <- app_assoc.
      split; [done|]. rewrite forallb_app, Hevs, response_events_awaits. done.
    + exists (response_events net c). split; [done|].
      apply response_events_awaits.
Qed.

Lemma multi_node_call_snd proc params node_list w :
  ∃ evs,
    (multi_node_call net proc params node_list w).2
    = World (trace w
             ++ connect_events net (Client_init proc (PList params))
                  (opened w) node_list
             ++ evs)
            (opened w + length node_list)
    ∧ forallb awaits_only evs = true.
Proof.
  unfold multi_node_call. unfold bind at 1. rewrite connect_list_spec.
  unfold bind, ret, run.
  match goal with |- context [run_loop net ?c ?its ?w0] =>
    destruct (run_loop_world c its w0) as (evs & Hw & Hevs);
    destruct (run_loop net c its w0) as [[c'|e] w1] end;
    simpl in *; subst w1; exists evs; by rewrite <- app_assoc.
Qed.




Lemma connect_events_connect parent (hc : nat) l (j : nat) n :
  l !! j = Some n →
  EvConnect (hc + j)%nat n (port parent) ∈ connect_events net parent hc l.
Proof.
  revert hc j. induction l as [|x l IH]; intros hc j; simpl; [done|].
  destruct j as [|j]; simpl.
  - intros [= ->]. apply elem_of_app. left. rewrite Nat.add_0_r.
    unfold open_events. destruct (opening (net n hc)) as [[]|]; apply list_elem_of_here.
  - intros Hj. apply elem_of_app. right.
    replace (hc + S j)%nat with (S hc + j)%nat by lia. by apply IH.
Qed.

End Traces.

(** ** Properties of the fan-out call *)

Section FanOutClaims.
Context `{Imports} (net : network).


(** C9.  When a node occurs several times in the node list,
    [connect_list] opens a connection for each occurrence and leaves in
    [self.nc] the controller of the last one; the entry of the node in
    the result of the call is what awaiting that last connection
    returned. *)
Theorem C9_last_connection_wins
    (proc : string) (params : list pyval) (node_list : list string)
    (w : world) (n : string) (i : nat) :
  last_index n node_list = Some i →
  ∃ c evs,
    connect_list net (Client_init proc (PList params)) node_list w
    = (Ret c, World (trace w ++ evs) (opened w + length node_list))
    ∧ (∀ j : nat, node_list !! j = Some n →
         EvConnect (opened w + j) n GetNodeDaemonPort ∈ evs)
    ∧ nc c !! n = Some (controller_of net n (opened w + i))
    ∧ ∀ m w',
        multi_node_call net proc params node_list w = (Ret m, w') →
        ∃ v, outcome net (controller_of net n (opened w + i)) = Ret v
             ∧ m !! n = Some v.
Proof.
  intros Hi. rewrite connect_list_spec. eexists _, _.
  split; [reflexivity|]. split; [|split].
  - intros j Hj.
    by apply (connect_events_connect net (Client_init proc (PList params))
                (opened w) node_list j n).
  - simpl. by rewrite nc_after_lookup, Hi.
  - intros m w' Hcall.
    pose proof (multi_node_call_lookup net _ _ _ _ _ _ n Hcall) as Hm.
    unfold entry_of in Hm. rewrite Hi in Hm.
    destruct (outcome net (controller_of net n (opened w + i))) as [v|e] eqn:Ho.
    + by exists v.
    + exfalso.
      destruct (multi_node_call_raises net proc params node_list w n i e Hi Ho)
        as [e' He'].
      by rewrite Hcall in He'.
Qed.

Lemma os_diagnose_entry_falsy (v : pyval) :
  truthy v = false → os_diagnose_entry v = Ret [].
Proof. unfold os_diagnose_entry. by intros ->. Qed.

Lemma os_diagnose_loop_other result acc names d n :
  os_diagnose_loop result acc names = Ret d → n ∉ names → d !! n = acc !! n.
Proof.
  revert acc. induction names as [|x names IH]; intros acc; simpl.
  - by intros [= <-].
  - destruct (os_diagnose_entry _) as [nr|e]; simpl; [|done].
    intros Hd Hn. apply not_elem_of_cons in Hn as [Hne Hn].
    rewrite (IH _ Hd Hn). by rewrite lookup_insert_ne.
Qed.

Lemma os_diagnose_loop_lookup result acc names d n :
  os_diagnose_loop result acc names = Ret d → n ∈ names →
  ∃ nr, os_diagnose_entry (default PNone (result !! n)) = Ret nr
        ∧ d !! n = Some nr.
Proof.
  revert acc. induction names as [|x names IH]; intros acc; simpl.
  - intros _ Hin. by apply elem_of_nil in Hin.
  - destruct (os_diagnose_entry (default PNone (result !! x))) as [nr|e] eqn:He;
      simpl; [|done].
    intros Hd Hin.
    destruct (decide (n ∈ names)) as [Hn|Hn]; [by eapply IH|].
    apply elem_of_cons in Hin as [->|Hin]; [|done].
    exists nr. split; [done|].
    rewrite (os_diagnose_loop_other _ _ _ _ _ Hd Hn).
    by rewrite lookup_insert_eq.
Qed.

Lemma os_diagnose_loop_dom result acc names d :
  os_diagnose_loop result acc names = Ret d →
  dom d = dom acc ∪ list_to_set names.
Proof.
  revert acc. induction names as [|x names IH]; intros acc; simpl.
  - intros [= <-]. set_solver.
  - destruct (os_diagnose_entry _) as [nr|e]; simpl; [|done].
    intros Hd. rewrite (IH _ Hd), dom_insert_L. set_solver.
Qed.

(** C10.  In the dictionary that [call_os_diagnose] returns, every
    node whose result is falsy has the empty list; the [False] of a
    failed node and the empty list reported by a node give the same
    entry. *)
Theorem C10_falsy_result_becomes_empty_list
    (node_list : list string) (w w' : world) (d : gmap string (list OS)) :
  call_os_diagnose net node_list w = (Ret d, w') →
  ∃ result,
    multi_node_call net "os_diagnose" [] node_list w = (Ret result, w')
    ∧ dom d = dom result
    ∧ (∀ n v, result !! n = Some v → truthy v = false → d !! n = Some [])
    ∧ (∀ n1 n2, result !! n1 = Some (PBool false) →
                result !! n2 = Some (PList []) → d !! n1 = d !! n2).
Proof.
  unfold call_os_diagnose, bind, lift.
  destruct (multi_node_call net "os_diagnose" [] node_list w)
    as [[result|e] w1]; [|done].
  destruct (os_diagnose_loop result ∅ (items result).*1) as [d'|e] eqn:Hloop;
    [|done].
  intros [= -> ->]. exists result. split; [done|].
  assert (∀ n v, result !! n = Some v → truthy v = false → d !! n = Some [])
    as Hfalsy.
  { intros n v Hn Hv.
    assert (n ∈ (items result).*1) as Hin.
    { apply list_elem_of_fmap. exists (n, v). split; [done|].
      by apply elem_of_items. }
    destruct (os_diagnose_loop_lookup _ _ _ _ _ Hloop Hin) as (nr & Hnr & ->).
    rewrite Hn in Hnr. simpl in Hnr.
    rewrite (os_diagnose_entry_falsy _ Hv) in Hnr. congruence. }
  split; [|split; [done|]].
  - rewrite (os_diagnose_loop_dom _ _ _ _ Hloop), items_keys. set_solver.
  - intros n1 n2 H1 H2.
    by rewrite (Hfalsy _ _ H1), (Hfalsy _ _ H2).
Qed.
End FanOutClaims.

(** ** The code on concrete networks *)

Section Concrete.
Import Reference Examples.
Existing Instance imports.

(** The scenarios of the specification. *)

Example scenario_a :
  (call_vg_list net_scenario_a ["n1"; "n2"] world0).1
  = Ret (<["n1" := PDict [("vg0", PInt 1024)]]> (<["n2" := PBool false]> ∅)).
Proof. vm_compute. reflexivity. Qed.

Example scenario_b :
  (call_bridges_exist net_overloaded "n1" (PList [PStr "xen-br0"]) world0).1
  = Ret (PBool false).
Proof. vm_compute. reflexivity. Qed.

Example scenario_c : call_version net_all_fine [] world0 = (Ret ∅, world0).
Proof. apply multi_node_call_nil. Qed.

Example scenario_d :
  (call_version net_overloaded ["n3"] world0).1 = Ret {["n3" := PBool false]}.
Proof. vm_compute. reflexivity. Qed.

(** C1.  Over the single node n1, whose reply is not valid JSON, the
    call does not return a result map with the key n1: it raises
    [ValueError]. *)
Theorem C1_call_raises_instead_of_returning_a_map :
  (call_vg_list net_malformed ["n1"] world0).1 = Raise ValueError.
Proof. vm_compute. reflexivity. Qed.

(** C2.  In one call, n1 succeeds with the decoded value false, n2
    cannot be reached, n3 answers with status 500, n4 sends a bad
    length header and n5 an empty body: the five entries of the result
    are the same Python value [False]. *)
Theorem C2_false_is_shared_by_success_and_failure :
  ∃ m, (multi_node_call net_overloaded "bridges_exist" [PList []]
          ["n1"; "n2"; "n3"; "n4"; "n5"] world0).1 = Ret m
       ∧ outcome net_overloaded (MkNodeController "n1" false 0) = Ret (PBool false)
       ∧ failed (controller_of net_overloaded "n2" 1) = true
       ∧ Forall (λ n, m !! n = Some (PBool false))
           ["n1"; "n2"; "n3"; "n4"; "n5"].
Proof.
  eexists. split; [vm_compute; reflexivity|].
  split; [vm_compute; reflexivity|].
  split; [vm_compute; reflexivity|].
  repeat constructor.
Qed.

(** C4.  A body of one byte that is not valid JSON, read in full:
    [get_response] raises [ValueError], after [getresponse] and [read]. *)
Theorem C4_malformed_payload_raises :
  get_response net_malformed (MkNodeController "n1" false 0) world0
  = (Raise ValueError, World [EvGetResponse 0; EvRead 0 1] 0).
Proof. vm_compute. reflexivity. Qed.

(** C5 fails on a reply that announces five bytes and delivers two:
    the two bytes are decoded and returned. *)
Lemma C5_partial_payload_is_returned :
  py_int "5" = Ret 5
  ∧ String.length (avail (answered 200 (Some "5") "12")) = 2%nat
  ∧ (get_response net_short (MkNodeController "n1" false 0) world0).1 = Ret (PInt 12)
  ∧ (get_response net_short (MkNodeController "n1" false 0) world0).1 ≠ Ret (PBool false).
Proof.
  split; [reflexivity|]. split; [reflexivity|].
  split; [vm_compute; reflexivity|]. vm_compute. discriminate.
Qed.

(** C8.  [net_all_fine], [net_one_reset] and [net_one_malformed]
    differ at n2 only.  On the first the call returns an entry for n1
    and for n2.  On the second, where n2 resets the connection while
    its response is awaited, and on the third, where the body of n2 is
    not valid JSON, the call raises, and the entry of n1 is lost with
    it. *)
Theorem C8_failure_of_one_node_aborts_the_call :
  (∀ k hc, k ≠ "n2" → net_all_fine k hc = net_one_reset k hc)
  ∧ (∀ k hc, k ≠ "n2" → net_all_fine k hc = net_one_malformed k hc)
  ∧ (call_vg_list net_all_fine ["n1"; "n2"] world0).1
    = Ret (<["n1" := PBool true]> (<["n2" := PBool true]> ∅))
  ∧ (call_vg_list net_one_reset ["n1"; "n2"] world0).1 = Raise SocketError
  ∧ (call_vg_list net_one_malformed ["n1"; "n2"] world0).1 = Raise ValueError.
Proof.
  split; [|split; [|repeat split; vm_compute; reflexivity]].
  - intros k hc Hk. unfold net_all_fine, net_one_reset. cbn [table].
    destruct (String.eqb_spec "n1" k); [done|].
    destruct (String.eqb_spec "n2" k); [congruence|done].
  - intros k hc Hk. unfold net_all_fine, net_one_malformed. cbn [table].
    destruct (String.eqb_spec "n1" k); [done|].
    destruct (String.eqb_spec "n2" k); [congruence|done].
Qed.
End Concrete.

(** ** The theorems at concrete inputs *)

Section Instances.
Import Reference Examples.
Existing Instance imports.

(** C3 at the unreachable node n2. *)
Lemma C3_open_failure_is_captured_at_n2 :
  ∃ c w',
    NodeController_init net_overloaded (Client_init "version" (PList []))
      "n2" world0 = (Ret c, w')
    ∧ failed c = true
    ∧ ∀ w2, get_response net_overloaded c w2 = (Ret (PBool false), w2).
Proof.
  apply (C3_open_failure_is_captured net_overloaded
           (Client_init "version" (PList [])) "n2" world0 FaultConnect).
  reflexivity.
Defined.

(** C6 at the empty reply of n5. *)
Lemma C6_zero_length_is_failure_at_n5 :
  get_response net_overloaded (MkNodeController "n5" false 0) world0
  = (Ret (PBool false),
     World [EvGetResponse 0; EvLog "Zero-length reply from node n5"] 0).
Proof.
  apply (C6_zero_length_is_failure net_overloaded
           (MkNodeController "n5" false 0) world0
           (answered 200 (Some "0") EmptyString));
    reflexivity.
Defined.

(** C5 at the reply that announces two bytes and delivers five. *)
Lemma C5_bytes_read_are_decoded_at_long_reply :
  get_response net_long (MkNodeController "n1" false 0) world0
  = (Ret (PInt 12), World [EvGetResponse 0; EvRead 0 2] 0).
Proof.
  apply (C5_bytes_read_are_decoded net_long
           (MkNodeController "n1" false 0) world0
           (answered 200 (Some "2") "12345") 2 (PInt 12));
    [reflexivity | reflexivity | reflexivity | reflexivity | lia
    | reflexivity | vm_compute; reflexivity].
Defined.


(** C9 at a list that names n1 twice: the entry of n1 is the answer to
    the second connection. *)
Lemma C9_last_connection_wins_at_n1_twice :
  (∃ c evs,
    connect_list net_by_connection (Client_init "version" (PList []))
      ["n1"; "n1"] world0
    = (Ret c, World (trace world0 ++ evs) 2)
    ∧ (∀ j : nat, ["n1"; "n1"] !! j = Some "n1" →
         EvConnect (0 + j) "n1" 1811 ∈ evs)
    ∧ nc c !! "n1" = Some (controller_of net_by_connection "n1" 1)
    ∧ ∀ m w',
        multi_node_call net_by_connection "version" [] ["n1"; "n1"] world0
        = (Ret m, w') →
        ∃ v, outcome net_by_connection (controller_of net_by_connection "n1" 1)
             = Ret v
             ∧ m !! "n1" = Some v)
  ∧ (multi_node_call net_by_connection "version" [] ["n1"; "n1"] world0).1
    = Ret {["n1" := PInt 2]}.
Proof.
  split.
  - refine (C9_last_connection_wins net_by_connection "version" []
              ["n1"; "n1"] world0 "n1" 1 _).
    reflexivity.
  - vm_compute. reflexivity.
Defined.

(** C10 at an unreachable node and a node without OS definitions. *)
Lemma C10_falsy_result_at_failed_and_empty :
  let d : gmap string (list pyval) := <["n1" := []]> (<["n2" := []]> ∅) in
  ∃ result,
    multi_node_call net_os "os_diagnose" [] ["n1"; "n2"] world0
    = (Ret result, (call_os_diagnose net_os ["n1"; "n2"] world0).2)
    ∧ dom d = dom result
    ∧ (∀ n v, result !! n = Some v → truthy v = false → d !! n = Some [])
    ∧ (∀ n1 n2, result !! n1 = Some (PBool false) →
                result !! n2 = Some (PList []) → d !! n1 = d !! n2).
Proof.
  intros d.
  refine (C10_falsy_result_becomes_empty_list net_os ["n1"; "n2"] world0
            (call_os_diagnose net_os ["n1"; "n2"] world0).2 d _).
  vm_compute. reflexivity.
Defined.
End Instances.

(** ** Further properties of one node call *)

Section NodeCallMore.
Context `{Imports} (net : network).

(** X1.  When nothing fails, [NodeController.__init__] makes exactly
    five calls on a fresh connection: connect to the node on the port of
    the client, a PUT request for the path of the procedure, a
    Content-Length header holding the decimal length of the body, the
    end of the headers, and the body.  The controller it returns is not
    failed. *)
Theorem X1_request_is_put_with_length_and_body
    (parent : Client) (n : string) (w : world) :
  opening (net n (opened w)) = None →
  NodeController_init net parent n w
  = (Ret (MkNodeController n false (opened w)),
     World (trace w ++
              [EvConnect (opened w) n (port parent);
               EvPutRequest (opened w) "PUT" ("/" +:+ procedure parent);
               EvPutHeader (opened w) "Content-Length"
                 (pretty (String.length (body parent)));
               EvEndHeaders (opened w);
               EvSend (opened w) (body parent)])
           (S (opened w))).
Proof.
  intros Hop. rewrite NodeController_init_spec.
  unfold controller_of, open_events. by rewrite Hop.
Qed.

(** X2.  When a [socket.error] strikes, [NodeController.__init__] stops
    at the failing call: the calls made are the first one (connect),
    four (up to the end of the headers) or five (up to the body) of the
    calls of a request, nothing is called after the failing one, and the
    error is logged.  The controller is returned with [failed] set. *)
Theorem X2_fault_stops_the_request
    (parent : Client) (n : string) (w : world) (f : open_fault) :
  opening (net n (opened w)) = Some f →
  NodeController_init net parent n w
  = (Ret (MkNodeController n true (opened w)),
     World (trace w
            ++ take (calls_until f) (request_events parent n (opened w))
            ++ [EvLog ("Error connecting to node " +:+ n)])
           (S (opened w))).
Proof.
  intros Hop. rewrite NodeController_init_spec.
  unfold controller_of, open_events. rewrite Hop. by destruct f.
Qed.

(** X3.  A response whose status is not 200 makes [get_response] return
    [False] right after [getresponse]: the length header is not looked
    at, the body is not read, nothing is logged. *)
Theorem X3_bad_status_is_false
    (c : NodeController) (w : world) (r : response) :
  failed c = false →
  answer (net (node c) (http_conn c)) = Reply r →
  status r ≠ 200 →
  get_response net c w
  = (Ret (PBool false),
     World (trace w ++ [EvGetResponse (http_conn c)]) (opened w)).
Proof.
  intros Hf Ha Hst.
  unfold get_response, hc_getresponse, emit, bind, ret.
  rewrite Hf, Ha. simpl.
  apply Z.eqb_neq in Hst. by rewrite Hst.
Qed.

(** X4.  With status 200 and a Content-Length on which [int] raises
    [ValueError], [get_response] returns [False]; the body is not read. *)
Theorem X4_bad_length_header_is_false
    (c : NodeController) (w : world) (r : response) :
  failed c = false →
  answer (net (node c) (http_conn c)) = Reply r →
  status r = 200 →
  py_int (getheader_content_length r "0") = Raise ValueError →
  get_response net c w
  = (Ret (PBool false),
     World (trace w ++ [EvGetResponse (http_conn c)]) (opened w)).
Proof.
  intros Hf Ha Hst Hlen.
  unfold get_response, hc_getresponse, emit, bind, ret.
  rewrite Hf, Ha, Hst. simpl. by rewrite Hlen.
Qed.

(** X5.  A response with status 200 and no Content-Length header at all
    is treated as a zero-length reply: the header defaults to the
    string 0, so [get_response] logs the zero-length reply and returns
    [False] without reading a body that the peer may have sent. *)
Theorem X5_missing_length_header_is_zero_length
    (c : NodeController) (w : world) (r : response) :
  failed c = false →
  answer (net (node c) (http_conn c)) = Reply r →
  status r = 200 →
  content_length r = None →
  py_int "0" = Ret 0 →
  get_response net c w
  = (Ret (PBool false),
     World (trace w ++ [EvGetResponse (http_conn c);
                        EvLog ("Zero-length reply from node " +:+ node c)])
           (opened w)).
Proof.
  intros Hf Ha Hst Hcl Hint.
  unfold get_response, hc_getresponse, getheader_content_length,
    emit, bind, ret.
  rewrite Hf, Ha, Hst, Hcl. simpl. rewrite Hint. simpl.
  by rewrite <- app_assoc.
Qed.

(** X6.  When [read] of the declared length does not raise and the
    bytes it returns are refused by [simplejson.loads], [get_response]
    raises the exception of the decoder, after [getresponse] and that
    one [read]. *)
Theorem X6_decoder_exception_leaves_get_response
    (c : NodeController) (w : world) (r : response) (len : Z) (e : exn) :
  failed c = false →
  answer (net (node c) (http_conn c)) = Reply r →
  status r = 200 →
  py_int (getheader_content_length r "0") = Ret len →
  len ≠ 0 →
  read_fault r len = None →
  loads (if len <? 0 then avail r
         else String.substring 0 (Z.to_nat len) (avail r)) = Raise e →
  get_response net c w
  = (Raise e,
     World (trace w ++ [EvGetResponse (http_conn c); EvRead (http_conn c) len])
           (opened w)).
Proof.
  intros Hf Ha Hst Hlen Hnz Hrd Hv.
  unfold get_response, hc_getresponse, resp_read, emit, bind, ret, lift.
  rewrite Hf, Ha, Hst. simpl. rewrite Hlen.
  apply Z.eqb_neq in Hnz. rewrite Hnz. simpl. rewrite Hrd.
  rewrite Hv. by rewrite <- app_assoc.
Qed.

(** X24.  When [read] of the declared length raises, for a length too
    large for the platform or for a connection that breaks while the
    body arrives, [get_response] raises the same exception after
    [getresponse] and the failed [read]; the decoder is not called and
    the exception is not turned into [False]. *)
Theorem X24_read_exception_leaves_get_response
    (c : NodeController) (w : world) (r : response) (len : Z) (e : exn) :
  failed c = false →
  answer (net (node c) (http_conn c)) = Reply r →
  status r = 200 →
  py_int (getheader_content_length r "0") = Ret len →
  len ≠ 0 →
  read_fault r len = Some e →
  get_response net c w
  = (Raise e,
     World (trace w ++ [EvGetResponse (http_conn c); EvRead (http_conn c) len])
           (opened w)).
Proof.
  intros Hf Ha Hst Hlen Hnz Hrd.
  unfold get_response, hc_getresponse, resp_read, emit, bind, ret, raise.
  rewrite Hf, Ha, Hst. simpl. rewrite Hlen.
  apply Z.eqb_neq in Hnz. rewrite Hnz. simpl. rewrite Hrd.
  by rewrite <- app_assoc.
Qed.

(** X7.  When [getresponse] itself raises, on a connection that was
    opened without fault, [get_response] raises the same exception; it
    is not turned into [False]. *)
Theorem X7_getresponse_exception_leaves_get_response
    (c : NodeController) (w : world) (e : exn) :
  failed c = false →
  answer (net (node c) (http_conn c)) = NoReply e →
  get_response net c w
  = (Raise e, World (trace w ++ [EvGetResponse (http_conn c)]) (opened w)).
Proof.
  intros Hf Ha.
  unfold get_response, hc_getresponse, emit, bind, raise.
  by rewrite Hf, Ha.
Qed.
End NodeCallMore.

(** ** Further properties of the client *)

Section ClientMore.
Context `{Imports} (net : network).

Lemma items_singleton {V} (n : string) (v : V) :
  items (<[n := v]> (∅ : gmap string V)) = [(n, v)].
Proof.
  apply Permutation_singleton_r.
  by rewrite (items_perm V _), insert_empty, map_to_list_singleton.
Qed.

Lemma open_events_framed parent n hc :
  forallb (framed (procedure parent) (body parent))
          (open_events net parent n hc) = true.
Proof.
  unfold open_events. destruct (opening (net n hc)) as [[]|]; simpl;
    by rewrite ?String.eqb_refl.
Qed.

Lemma connect_events_framed parent hc l :
  forallb (framed (procedure parent) (body parent))
          (connect_events net parent hc l) = true.
Proof.
  revert hc. induction l as [|n l IH]; intros hc; simpl; [done|].
  by rewrite forallb_app, open_events_framed, IH.
Qed.

Lemma awaits_only_framed proc data e :
  awaits_only e = true → framed proc data e = true.
Proof. by destruct e. Qed.

Lemma connect_events_no_getresponse parent hc l k :
  EvGetResponse k ∉ connect_events net parent hc l.
Proof.
  revert hc. induction l as [|n l IH]; intros hc; simpl.
  - apply not_elem_of_nil.
  - apply not_elem_of_app. split; [|apply IH].
    unfold open_events. intros Hin.
    destruct (opening (net n hc)) as [[]|]; simpl in Hin;
      repeat (apply elem_of_cons in Hin as [Hin|Hin]; [discriminate|]);
      by apply elem_of_nil in Hin.
Qed.

Lemma response_events_getresponse (c : NodeController) k :
  EvGetResponse k ∈ response_events net c → http_conn c = k.
Proof.
  unfold response_events, get_response, hc_getresponse, resp_read,
    emit, bind, ret, raise, lift.
  destruct (failed c); simpl; [by intros ?%elem_of_nil|].
  assert (∀ rest, (∀ e, e ∈ rest → awaits_only e = true ∧ ∀ j, e ≠ EvGetResponse j) →
            EvGetResponse k ∈ EvGetResponse (http_conn c) :: rest →
            http_conn c = k) as Hhead.
  { intros rest Hrest [[= ->]|Hin]%elem_of_cons; [done|].
    destruct (Hrest _ Hin) as [_ Hne]. by destruct (Hne k). }
  destruct (answer (net (node c) (http_conn c))) as [r|e]; simpl.
  2: { apply Hhead. by intros e' ?%elem_of_nil. }
  destruct (negb (status r =? 200)); simpl.
  { apply Hhead. by intros e' ?%elem_of_nil. }
  destruct (py_int _) as [len|[]]; simpl;
    try (apply Hhead; by intros e' ?%elem_of_nil).
  destruct (len =? 0); simpl.
  - apply Hhead. intros e' ->%list_elem_of_singleton. by split.
  - destruct (read_fault r len); simpl;
      [apply Hhead; intros e' ->%list_elem_of_singleton; by split|].
    destruct (loads _); simpl;
      apply Hhead; intros e' ->%list_elem_of_singleton; by split.
Qed.

Lemma run_loop_getresponse (self : Client) its (w : world) :
  ∃ evs, (run_loop net self its w).2 = World (trace w ++ evs) (opened w)
         ∧ ∀ k, EvGetResponse k ∈ evs →
                ∃ n c, (n, c) ∈ its ∧ http_conn c = k.
Proof.
  revert self w. induction its as [|[n c] its IH]; intros self w; simpl.
  - exists []. rewrite app_nil_r, world_eta. split; [done|].
    by intros k ?%elem_of_nil.
  - unfold bind. rewrite get_response_spec.
    destruct (outcome net c) as [v|e]; simpl.
    + destruct (IH (set_results self (<[n:=v]> (results self)))
                  (World (trace w ++ response_events net c) (opened w)))
        as (evs & -> & Hevs). simpl.
      exists (response_events net c ++ evs). rewrite <- app_assoc.
      split; [done|]. intros k [Hk|Hk]%elem_of_app.
      * exists n, c. split; [apply list_elem_of_here|].
        by apply response_events_getresponse.
      * destruct (Hevs k Hk) as (n' & c' & Hin & Hc).
        exists n', c'. split; [by apply list_elem_of_further|done].
    + exists (response_events net c). split; [done|].
      intros k Hk. exists n, c. split; [apply list_elem_of_here|].
      by apply response_events_getresponse.
Qed.

(** X8.  [Client.run] on a client to which no node was connected does
    nothing: the client and the world are returned as they are. *)
Theorem X8_run_without_nodes_does_nothing (self : Client) (w : world) :
  nc self = ∅ → run net self w = (Ret self, w).
Proof.
  intros Hnc. unfold run. by rewrite Hnc, items_empty.
Qed.

(** X9.  [Client.connect] never raises.  It opens one connection, stores
    the new controller under the name of the node, replacing the one
    that was there, and leaves the controllers of the other nodes, the
    results, the procedure and the body as they are. *)
Theorem X9_connect_stores_the_controller
    (self : Client) (n : string) (w : world) :
  ∃ self' c w',
    connect net self n w = (Ret self', w')
    ∧ NodeController_init net self n w = (Ret c, w')
    ∧ opened w' = S (opened w)
    ∧ nc self' !! n = Some c
    ∧ node c = n ∧ http_conn c = opened w
    ∧ (∀ k, k ≠ n → nc self' !! k = nc self !! k)
    ∧ results self' = results self
    ∧ procedure self' = procedure self
    ∧ body self' = body self.
Proof.
  rewrite connect_spec, NodeController_init_spec.
  eexists _, _, _. split; [reflexivity|]. split; [reflexivity|]. simpl.
  split; [done|]. split; [by rewrite lookup_insert_eq|].
  split; [done|]. split; [done|]. split; [|done].
  intros k Hk. by rewrite lookup_insert_ne.
Qed.

(** X10.  Connecting a list of nodes in two parts is connecting the
    whole list: [connect_list] over [l1 ++ l2] is [connect_list] over
    [l1] followed by [connect_list] over [l2]. *)
Theorem X10_connect_list_app
    (self : Client) (l1 l2 : list string) (w : world) :
  connect_list net self (l1 ++ l2) w
  = bind (connect_list net self l1) (λ c, connect_list net c l2) w.
Proof.
  revert self w. induction l1 as [|n l1 IH]; intros self w; simpl; [done|].
  unfold bind. rewrite connect_spec. by rewrite IH.
Qed.

(** X11.  Whenever a multi-node call returns, the keys of the
    dictionary it returns are exactly the nodes of the node list; a node
    named several times has one key. *)
Theorem X11_returned_keys_are_the_nodes
    (proc : string) (params : list pyval) (node_list : list string)
    (w w' : world) (m : gmap string pyval) :
  multi_node_call net proc params node_list w = (Ret m, w') →
  dom m = list_to_set node_list.
Proof. apply multi_node_call_keys. Qed.

(** X12.  A multi-node call over the empty node list returns the empty
    dictionary and leaves the world as it is: no connection is created,
    nothing is sent, nothing is logged. *)
Theorem X12_no_nodes_no_network
    (proc : string) (params : list pyval) (w : world) :
  multi_node_call net proc params [] w = (Ret ∅, w).
Proof. apply multi_node_call_nil. Qed.

(** X13.  A multi-node call returns a dictionary if and only if
    awaiting the last connection of every node of the list returns; one
    node whose awaiting raises makes the whole call raise. *)
Theorem X13_call_returns_iff_every_await_returns
    (proc : string) (params : list pyval) (node_list : list string)
    (w : world) :
  (∃ m, (multi_node_call net proc params node_list w).1 = Ret m)
  ↔ (∀ n i, last_index n node_list = Some i →
       ∃ v, outcome net (controller_of net n (opened w + i)) = Ret v).
Proof.
  split.
  - intros [m Hm] n i Hi.
    destruct (outcome net (controller_of net n (opened w + i))) as [v|e] eqn:Ho;
      [by exists v|].
    destruct (multi_node_call_raises net proc params node_list w n i e Hi Ho)
      as [e' He'].
    congruence.
  - intros Hall. rewrite multi_node_call_fst. apply collect_all_Ret.
    apply Forall_forall. intros [n c] Hin. simpl.
    apply elem_of_items in Hin. rewrite nc_after_lookup in Hin.
    destruct (last_index n node_list) as [i|] eqn:Hi;
      [|by rewrite lookup_empty in Hin].
    injection Hin as <-. by apply Hall.
Qed.

(** X15.  A multi-node call works in two phases.  Everything
    [connect_list] does comes first; what [run] adds afterwards are only
    [getresponse] and [read] calls and log records, never a connect or a
    transmission.  One connection is created per element of the node
    list, whether it fails or not. *)
Theorem X15_all_requests_precede_all_awaits
    (proc : string) (params : list pyval) (node_list : list string)
    (w : world) :
  ∃ c opens awaits,
    connect_list net (Client_init proc (PList params)) node_list w
    = (Ret c, World (trace w ++ opens) (opened w + length node_list))
    ∧ (multi_node_call net proc params node_list w).2
      = World (trace w ++ opens ++ awaits) (opened w + length node_list)
    ∧ forallb awaits_only awaits = true
    ∧ ∀ k, EvGetResponse k ∉ opens.
Proof.
  destruct (multi_node_call_snd net proc params node_list w)
    as (evs & Hw & Hevs).
  rewrite connect_list_spec. eexists _, _, evs.
  split; [reflexivity|]. split; [exact Hw|]. split; [done|].
  intros k. apply connect_events_no_getresponse.
Qed.

(** X16.  In a multi-node call every request line is a PUT of the path
    of the procedure, every header is a Content-Length with the decimal
    length of the encoded arguments, and every body sent is the encoded
    arguments. *)
Theorem X16_every_request_is_framed_alike
    (proc : string) (params : list pyval) (node_list : list string)
    (w : world) :
  ∃ evs,
    (multi_node_call net proc params node_list w).2
    = World (trace w ++ evs) (opened w + length node_list)
    ∧ forallb (framed proc (dumps (PList params))) evs = true.
Proof.
  destruct (multi_node_call_snd net proc params node_list w)
    as (evs & Hw & Hevs).
  eexists. split; [exact Hw|].
  pose proof (connect_events_framed (Client_init proc (PList params))
                (opened w) node_list) as Hc.
  simpl in Hc. rewrite forallb_app, Hc. simpl.
  apply forallb_forall. intros e He. apply awaits_only_framed.
  by apply (proj1 (forallb_forall _ _) Hevs).
Qed.
End ClientMore.

Section IsolationMore.
Context `{Imports} (net net' : network).

(** X14.  When two networks differ in the behaviour of one node only
    and the same multi-node call returns on both, the two dictionaries
    agree on every other node. *)
Theorem X14_other_entries_do_not_depend_on_one_node
    (proc : string) (params : list pyval) (node_list : list string)
    (w w1 w1' : world) (m m' : gmap string pyval) (n : string) :
  (∀ k hc, k ≠ n → net k hc = net' k hc) →
  multi_node_call net proc params node_list w = (Ret m, w1) →
  multi_node_call net' proc params node_list w = (Ret m', w1') →
  ∀ k, k ≠ n → m !! k = m' !! k.
Proof. apply multi_node_call_isolated. Qed.
End IsolationMore.

(** ** Further properties of the calls of RpcRunner *)

Section RunnerMore.
Context `{Imports} `{UtilsImports} (net : network).

Lemma single_node_call_spec proc params n w :
  single_node_call net proc params n w
  = get_response net (controller_of net n (opened w))
      (World (trace w ++ open_events net (Client_init proc (PList params))
                           n (opened w))
             (S (opened w))).
Proof.
  unfold single_node_call. unfold bind at 1. rewrite connect_spec.
  unfold bind, run. simpl. rewrite items_singleton. simpl. unfold bind.
  destruct (get_response _ _ _) as [[v|e] w2]; simpl; [|done].
  unfold ret, getresult. simpl. by rewrite lookup_insert_eq.
Qed.

Lemma multi_node_call_getresponse proc params node_list w :
  ∃ evs,
    (multi_node_call net proc params node_list w).2
    = World (trace w
             ++ connect_events net (Client_init proc (PList params))
                  (opened w) node_list
             ++ evs)
            (opened w + length node_list)
    ∧ ∀ k, EvGetResponse k ∈ evs →
           ∃ n i, last_index n node_list = Some i ∧ k = (opened w + i)%nat.
Proof.
  unfold multi_node_call. unfold bind at 1. rewrite connect_list_spec.
  unfold bind, ret, run.
  match goal with |- context [run_loop net ?c ?its ?w0] =>
    destruct (run_loop_getresponse net c its w0) as (evs & Hw & Hevs);
    destruct (run_loop net c its w0) as [[c'|e] w1] end;
    simpl in *; subst w1; exists evs; rewrite <- app_assoc; (split; [done|]);
    intros k Hk; destruct (Hevs k Hk) as (n & c & Hin & Hc);
    apply elem_of_items in Hin; rewrite nc_after_lookup in Hin;
    (destruct (last_index n node_list) as [i|] eqn:Hi;
       [|by rewrite lookup_empty in Hin]);
    injection Hin as <-; by exists n, i.
Qed.

(** X17.  A single-node call is: open the connection to the node, then
    await it.  The result of the call, value or exception, and the world
    it leaves are those of [get_response] on the controller that
    [NodeController.__init__] built; the default of the final
    [get(node, False)] is never used. *)
Theorem X17_single_node_call_is_open_then_await
    (proc : string) (params : list pyval) (n : string) (w : world) :
  ∃ c w1,
    NodeController_init net (Client_init proc (PList params)) n w = (Ret c, w1)
    ∧ single_node_call net proc params n w = get_response net c w1.
Proof.
  rewrite NodeController_init_spec. eexists _, _. split; [reflexivity|].
  apply single_node_call_spec.
Qed.

(** X18.  A single-node call to a node that cannot be reached, or to
    which the request cannot be sent, returns [False] and does not
    raise; after the failed opening nothing more is done on the
    connection. *)
Theorem X18_single_node_call_to_unreachable_node
    (proc : string) (params : list pyval) (n : string) (w : world)
    (f : open_fault) :
  opening (net n (opened w)) = Some f →
  single_node_call net proc params n w
  = (Ret (PBool false),
     (NodeController_init net (Client_init proc (PList params)) n w).2).
Proof.
  intros Hf. rewrite single_node_call_spec, NodeController_init_spec.
  unfold get_response, controller_of. rewrite Hf. done.
Qed.

(** X19.  [call_os_get] hands an answer that is not a dictionary back
    as it is: the [False] of a failure, but also a list, a string or a
    number that the node sent, are returned in place of an OS object,
    and [objects.OS.FromDict] is not called. *)
Theorem X19_call_os_get_passes_non_dict_through
    (n : string) (name : pyval) (w w1 w2 : world) (c : NodeController)
    (v : pyval) :
  NodeController_init net (Client_init "os_get" (PList [name])) n w
  = (Ret c, w1) →
  get_response net c w1 = (Ret v, w2) →
  is_dict v = false →
  call_os_get net n name w = (Ret (inr v), w2).
Proof.
  rewrite NodeController_init_spec. intros [= <- <-] Hget Hv.
  unfold call_os_get, bind. rewrite single_node_call_spec, Hget.
  by rewrite Hv.
Qed.

Lemma node_info_loop_spec retux names w :
  NoDup names →
  ∃ r w',
    node_info_loop retux names w = (Ret r, w')
    ∧ opened w' = opened w
    ∧ dom r = dom retux
    ∧ (∀ n, n ∉ names → r !! n = retux !! n)
    ∧ (∀ n v, retux !! n = Some v → is_dict v = false → r !! n = Some v)
    ∧ (∀ n kvs, n ∈ names → retux !! n = Some (PDict kvs) →
         r !! n
         = Some (PDict (CheckDict kvs node_info_template "call_node_info").1)).
Proof.
  revert retux w. induction names as [|x names IH]; intros retux w Hnd; simpl.
  - exists retux, w. repeat split; try done.
    intros n kvs Hin. by apply elem_of_nil in Hin.
  - apply NoDup_cons in Hnd as [Hx Hnd].
    destruct (default (PBool false) (retux !! x)) as [| | | | |kvs] eqn:Hd.
    6: {
      assert (retux !! x = Some (PDict kvs)) as Hx'.
      { destruct (retux !! x) as [v|]; simpl in Hd; [by subst|done]. }
      unfold bind, check_dict.
      destruct (CheckDict kvs node_info_template "call_node_info")
        as [kvs' logged] eqn:Hck.
      destruct (IH (<[x := PDict kvs']> retux)
                  (World (trace w ++ (EvLog <$> logged)) (opened w)) Hnd)
        as (r & w' & -> & Hop & Hdom & Hout & Hkeep & Hdict).
      exists r, w'. split; [done|]. split; [done|]. split; [|split; [|split]].
      - rewrite Hdom, dom_insert_L.
        assert (x ∈ dom retux) by (apply elem_of_dom; eauto). set_solver.
      - intros n [Hne Hn]%not_elem_of_cons.
        rewrite (Hout n Hn). by rewrite lookup_insert_ne.
      - intros n v Hn Hv. apply Hkeep; [|done].
        rewrite lookup_insert_ne; [done|]. intros ->.
        rewrite Hx' in Hn. injection Hn as <-. done.
      - intros n kvs0 [->|Hin]%elem_of_cons Hn.
        + rewrite (Hout x Hx), lookup_insert_eq.
          rewrite Hx' in Hn. injection Hn as <-. by rewrite Hck.
        + apply Hdict; [done|].
          rewrite lookup_insert_ne; [done|]. intros ->. done. }
    all: unfold bind, emit, check_dict;
      destruct (CheckDict [] node_info_template "call_node_info")
        as [kvs' logged] eqn:Hck; simpl;
      match goal with |- context [node_info_loop _ _ ?w0] =>
        destruct (IH retux w0 Hnd)
          as (r & w' & -> & Hop & Hdom & Hout & Hkeep & Hdict) end;
      exists r, w'; (split; [done|]); (split; [done|]); (split; [done|]);
      (split; [|split; [done|]]);
      [ intros n [Hne Hn]%not_elem_of_cons; by apply Hout
      | intros n kvs0 [->|Hin]%elem_of_cons Hn;
        [ rewrite Hn in Hd; simpl in Hd; discriminate
        | by apply Hdict ] ].
Qed.

(** X20.  [call_node_info] returns whenever the underlying multi-node
    call returns, with one entry per node of the list.  An answer that
    is not a dictionary, the [False] of a failed node included, stays
    in the returned dictionary as it is: the defaults are filled into a
    fresh dictionary that is dropped.  An answer that is a dictionary
    is replaced by what [utils.CheckDict] makes of it. *)
Theorem X20_call_node_info_keeps_non_dict_answers
    (node_list : list string) (vg_name hypervisor_type : pyval)
    (w w1 : world) (raw : gmap string pyval) :
  multi_node_call net "node_info" [vg_name; hypervisor_type] node_list w
  = (Ret raw, w1) →
  ∃ r w',
    call_node_info net node_list vg_name hypervisor_type w = (Ret r, w')
    ∧ dom r = list_to_set node_list
    ∧ (∀ n v, raw !! n = Some v → is_dict v = false → r !! n = Some v)
    ∧ (∀ n kvs, raw !! n = Some (PDict kvs) →
         r !! n
         = Some (PDict (CheckDict kvs node_info_template "call_node_info").1)).
Proof.
  intros Hcall. unfold call_node_info, bind. rewrite Hcall.
  destruct (node_info_loop_spec raw (items raw).*1 w1 (items_NoDup raw))
    as (r & w' & Hloop & _ & Hdom & _ & Hkeep & Hdict).
  exists r, w'. split; [done|]. split; [|split; [done|]].
  - rewrite Hdom. by apply (multi_node_call_keys net _ _ _ _ _ _ Hcall).
  - intros n kvs Hn. apply Hdict; [|done].
    apply list_elem_of_fmap. exists (n, PDict kvs). split; [done|].
    by apply elem_of_items.
Qed.

(** X21.  When a node is named more than once in the node list, the
    connections opened for its earlier occurrences are never awaited:
    the request goes out on them, and [getresponse] is not called on
    them. *)
Theorem X21_overwritten_connection_is_never_awaited
    (proc : string) (params : list pyval) (node_list : list string)
    (w : world) (n : string) (i j : nat) :
  last_index n node_list = Some i →
  node_list !! j = Some n →
  j ≠ i →
  ∃ evs,
    (multi_node_call net proc params node_list w).2
    = World (trace w ++ evs) (opened w + length node_list)
    ∧ EvConnect (opened w + j) n GetNodeDaemonPort ∈ evs
    ∧ EvGetResponse (opened w + j) ∉ evs.
Proof.
  intros Hi Hj Hne.
  destruct (multi_node_call_getresponse proc params node_list w)
    as (evs & Hw & Hevs).
  eexists. split; [exact Hw|]. split.
  - apply elem_of_app. left.
    by apply (connect_events_connect net (Client_init proc (PList params))
                (opened w) node_list j n).
  - apply not_elem_of_app. split; [apply connect_events_no_getresponse|].
    intros Hin. destruct (Hevs _ Hin) as (n' & i' & Hi' & Heq).
    assert (i' = j) as -> by lia.
    pose proof (last_index_lookup _ _ _ Hi') as Hj'.
    assert (n' = n) as -> by congruence. congruence.
Qed.

Lemma os_diagnose_loop_raises result acc names n e :
  n ∈ names →
  os_diagnose_entry (default PNone (result !! n)) = Raise e →
  ∃ e', os_diagnose_loop result acc names = Raise e'.
Proof.
  revert acc. induction names as [|x names IH]; intros acc Hin He; simpl.
  - by apply elem_of_nil in Hin.
  - apply elem_of_cons in Hin as [<-|Hin].
    + rewrite He. by eexists.
    + destruct (os_diagnose_entry (default PNone (result !! x))); simpl;
        [by apply IH|by eexists].
Qed.

(** X22.  [call_os_diagnose] raises as soon as one node answers a
    truthy value that cannot be iterated over, such as [True] or a
    number other than zero: the answers of all the other nodes are lost
    with it. *)
Theorem X22_call_os_diagnose_raises_on_scalar_answer
    (node_list : list string) (w w1 : world) (result : gmap string pyval)
    (n : string) (v : pyval) (e : exn) :
  multi_node_call net "os_diagnose" [] node_list w = (Ret result, w1) →
  result !! n = Some v →
  truthy v = true →
  py_iter v = Raise e →
  ∃ e', call_os_diagnose net node_list w = (Raise e', w1).
Proof.
  intros Hcall Hn Hv Hit. unfold call_os_diagnose, bind, lift. rewrite Hcall.
  assert (n ∈ (items result).*1) as Hin.
  { apply list_elem_of_fmap. exists (n, v). split; [done|].
    by apply elem_of_items. }
  destruct (os_diagnose_loop_raises result ∅ _ n e Hin) as [e' ->];
    [|by eexists].
  rewrite Hn. simpl. unfold os_diagnose_entry. by rewrite Hv, Hit.
Qed.

(** X23.  Whenever [call_os_diagnose] returns, the dictionary it returns
    has exactly the nodes of the node list as keys. *)
Theorem X23_call_os_diagnose_keys_are_the_nodes
    (node_list : list string) (w w' : world) (d : gmap string (list OS)) :
  call_os_diagnose net node_list w = (Ret d, w') →
  dom d = list_to_set node_list.
Proof.
  unfold call_os_diagnose, bind, lift.
  destruct (multi_node_call net "os_diagnose" [] node_list w)
    as [[result|e] w1] eqn:Hcall; [|done].
  destruct (os_diagnose_loop result ∅ (items result).*1) as [d'|e] eqn:Hloop;
    [|done].
  intros [= -> ->].
  rewrite (os_diagnose_loop_dom _ _ _ _ Hloop), items_keys.
  rewrite (multi_node_call_keys net _ _ _ _ _ _ Hcall). set_solver.
Qed.
End RunnerMore.

(** ** The further properties at concrete inputs *)

Section MoreInstances.
Import Reference Examples MoreExamples.
Existing Instance imports.
Existing Instance utils.

(** X1 at the first connection to n1. *)
Lemma X1_request_to_n1 :
  NodeController_init net_all_fine (Client_init "vg_list" (PList [])) "n1" world0
  = (Ret (MkNodeController "n1" false 0),
     World [EvConnect 0 "n1" 1811;
            EvPutRequest 0 "PUT" "/vg_list";
            EvPutHeader 0 "Content-Length" "2";
            EvEndHeaders 0;
            EvSend 0 "[]"] 1).
Proof.
  refine (X1_request_is_put_with_length_and_body net_all_fine
            (Client_init "vg_list" (PList [])) "n1" world0 _).
  reflexivity.
Defined.

(** X2 when the connection is lost while the body is sent. *)
Lemma X2_fault_while_sending :
  NodeController_init net_send_fault (Client_init "vg_list" (PList []))
    "n1" world0
  = (Ret (MkNodeController "n1" true 0),
     World [EvConnect 0 "n1" 1811;
            EvPutRequest 0 "PUT" "/vg_list";
            EvPutHeader 0 "Content-Length" "2";
            EvEndHeaders 0;
            EvSend 0 "[]";
            EvLog "Error connecting to node n1"] 1).
Proof.
  refine (X2_fault_stops_the_request net_send_fault
            (Client_init "vg_list" (PList [])) "n1" world0 FaultSend _).
  reflexivity.
Defined.

(** X3 at the status 500 of n3. *)
Lemma X3_status_500 :
  get_response net_overloaded (MkNodeController "n3" false 0) world0
  = (Ret (PBool false), World [EvGetResponse 0] 0).
Proof.
  refine (X3_bad_status_is_false net_overloaded
            (MkNodeController "n3" false 0) world0
            (answered 500 (Some "5") "false") _ _ _);
    [reflexivity | reflexivity | simpl; lia].
Defined.

(** X4 at the length header of n4. *)
Lemma X4_length_five_in_letters :
  get_response net_overloaded (MkNodeController "n4" false 0) world0
  = (Ret (PBool false), World [EvGetResponse 0] 0).
Proof.
  refine (X4_bad_length_header_is_false net_overloaded
            (MkNodeController "n4" false 0) world0
            (answered 200 (Some "five") "false") _ _ _ _);
    reflexivity.
Defined.

(** X5 at a reply that carries a body and no length. *)
Lemma X5_body_without_length :
  get_response net_no_length (MkNodeController "n1" false 0) world0
  = (Ret (PBool false),
     World [EvGetResponse 0; EvLog "Zero-length reply from node n1"] 0).
Proof.
  refine (X5_missing_length_header_is_zero_length net_no_length
            (MkNodeController "n1" false 0) world0
            (answered 200 None "true") _ _ _ _ _);
    reflexivity.
Defined.

(** X6 at the one-byte body of [net_malformed]. *)
Lemma X6_one_byte_that_is_not_json :
  get_response net_malformed (MkNodeController "n1" false 0) world0
  = (Raise ValueError, World [EvGetResponse 0; EvRead 0 1] 0).
Proof.
  refine (X6_decoder_exception_leaves_get_response net_malformed
            (MkNodeController "n1" false 0) world0
            (answered 200 (Some "1") "{") 1 ValueError _ _ _ _ _ _ _);
    [reflexivity | reflexivity | reflexivity | reflexivity | lia
    | reflexivity | vm_compute; reflexivity].
Defined.

(** X24 at a reply that announces more bytes than a C int can count. *)
Lemma X24_length_beyond_c_int :
  get_response net_huge_length (MkNodeController "n1" false 0) world0
  = (Raise OverflowError,
     World [EvGetResponse 0; EvRead 0 100000000000000000000] 0).
Proof.
  refine (X24_read_exception_leaves_get_response net_huge_length
            (MkNodeController "n1" false 0) world0
            (answered 200 (Some "100000000000000000000") "true")
            100000000000000000000 OverflowError _ _ _ _ _ _);
    [reflexivity | reflexivity | reflexivity | vm_compute; reflexivity | lia
    | reflexivity].
Defined.

(** X7 at a connection that is reset before the answer. *)
Lemma X7_connection_reset :
  get_response net_reset (MkNodeController "n1" false 0) world0
  = (Raise SocketError, World [EvGetResponse 0] 0).
Proof.
  refine (X7_getresponse_exception_leaves_get_response net_reset
            (MkNodeController "n1" false 0) world0 SocketError _ _);
    reflexivity.
Defined.

(** X8 at a client that was just built. *)
Lemma X8_run_on_new_client :
  run net_all_fine (Client_init "version" (PList [])) world0
  = (Ret (Client_init "version" (PList [])), world0).
Proof.
  refine (X8_run_without_nodes_does_nothing net_all_fine
            (Client_init "version" (PList [])) world0 _).
  reflexivity.
Defined.

(** X11 at a list that names n1 twice. *)
Lemma X11_keys_of_n1_n2_n1 :
  dom (<["n1" := PBool true]> (<["n2" := PBool true]> (∅ : gmap string pyval)))
  = list_to_set ["n1"; "n2"; "n1"].
Proof.
  refine (X11_returned_keys_are_the_nodes net_all_fine "version" []
            ["n1"; "n2"; "n1"] world0
            (multi_node_call net_all_fine "version" [] ["n1"; "n2"; "n1"]
               world0).2 _ _).
  vm_compute. reflexivity.
Defined.

(** X14 at two networks that differ at n2: n2 answers true on one and
    is unreachable on the other; the entry of n1 is the same. *)
Lemma X14_n1_does_not_depend_on_n2 :
  (<["n1" := PBool true]> (<["n2" := PBool true]> ∅) : gmap string pyval)
    !! "n1"
  = (<["n1" := PBool true]> (<["n2" := PBool false]> ∅) : gmap string pyval)
      !! "n1".
Proof.
  refine (X14_other_entries_do_not_depend_on_one_node net_all_fine net_true
            "version" [] ["n1"; "n2"] world0
            (multi_node_call net_all_fine "version" [] ["n1"; "n2"] world0).2
            (multi_node_call net_true "version" [] ["n1"; "n2"] world0).2
            _ _ "n2" _ _ _ "n1" _);
    [|vm_compute; reflexivity|vm_compute; reflexivity|discriminate].
  intros k hc Hk. unfold net_all_fine, net_true. cbn [table].
  destruct (String.eqb_spec "n1" k); [done|].
  destruct (String.eqb_spec "n2" k); [congruence|done].
Defined.

(** X18 at the unreachable node n2. *)
Lemma X18_bridges_exist_on_unreachable_node :
  call_bridges_exist net_overloaded "n2" (PList [PStr "xen-br0"]) world0
  = (Ret (PBool false),
     World [EvConnect 0 "n2" 1811; EvLog "Error connecting to node n2"] 1).
Proof.
  refine (X18_single_node_call_to_unreachable_node net_overloaded
            "bridges_exist" [PList [PStr "xen-br0"]] "n2" world0
            FaultConnect _).
  reflexivity.
Defined.

(** X19 at a node that answers a list. *)
Lemma X19_os_get_answered_by_a_list :
  call_os_get net_node_info "n3" (PStr "debian-etch") world0
  = (Ret (inr (PList [PInt 1])),
     (single_node_call net_node_info "os_get" [PStr "debian-etch"] "n3"
        world0).2).
Proof.
  refine (X19_call_os_get_passes_non_dict_through net_node_info "n3"
            (PStr "debian-etch") world0 _ _
            (MkNodeController "n3" false 0) (PList [PInt 1]) _ _ _);
    [vm_compute; reflexivity | vm_compute; reflexivity | reflexivity].
Defined.

(** X20 at a dictionary, an unreachable node and a list. *)
Lemma X20_node_info_of_three_nodes :
  let raw : gmap string pyval :=
    <["n1" := PDict [("vg_size", PInt 1024)]]>
      (<["n2" := PBool false]> (<["n3" := PList [PInt 1]]> ∅)) in
  ∃ r w',
    call_node_info net_node_info ["n1"; "n2"; "n3"] (PStr "xenvg")
      (PStr "xen-pvm") world0 = (Ret r, w')
    ∧ dom r = list_to_set ["n1"; "n2"; "n3"]
    ∧ (∀ n v, raw !! n = Some v → is_dict v = false → r !! n = Some v)
    ∧ (∀ n kvs, raw !! n = Some (PDict kvs) →
         r !! n
         = Some (PDict (CheckDict kvs node_info_template "call_node_info").1)).
Proof.
  intros raw.
  refine (X20_call_node_info_keeps_non_dict_answers net_node_info
            ["n1"; "n2"; "n3"] (PStr "xenvg") (PStr "xen-pvm") world0
            (multi_node_call net_node_info "node_info"
               [PStr "xenvg"; PStr "xen-pvm"] ["n1"; "n2"; "n3"] world0).2
            raw _).
  vm_compute. reflexivity.
Defined.

(** X21 at a list that names n1 twice: the first connection is not
    awaited. *)
Lemma X21_first_connection_to_n1_is_dropped :
  ∃ evs,
    (multi_node_call net_by_connection "version" [] ["n1"; "n1"] world0).2
    = World (trace world0 ++ evs) 2
    ∧ EvConnect 0 "n1" 1811 ∈ evs
    ∧ EvGetResponse 0 ∉ evs.
Proof.
  refine (X21_overwritten_connection_is_never_awaited net_by_connection
            "version" [] ["n1"; "n1"] world0 "n1" 1 0 _ _ _);
    [reflexivity | reflexivity | lia].
Defined.

(** X22 at a node that answers true. *)
Lemma X22_os_diagnose_answered_by_true :
  ∃ e',
    call_os_diagnose net_true ["n1"] world0
    = (Raise e', (multi_node_call net_true "os_diagnose" [] ["n1"] world0).2).
Proof.
  refine (X22_call_os_diagnose_raises_on_scalar_answer net_true ["n1"] world0
            _ {["n1" := PBool true]} "n1" (PBool true) TypeError _ _ _ _);
    [vm_compute; reflexivity | reflexivity | reflexivity | reflexivity].
Defined.

(** X23 at an unreachable node and a node without OS definitions. *)
Lemma X23_os_diagnose_keys :
  dom (<["n1" := []]> (<["n2" := []]> ∅) : gmap string (list pyval))
  = list_to_set ["n1"; "n2"].
Proof.
  refine (X23_call_os_diagnose_keys_are_the_nodes net_os ["n1"; "n2"] world0
            (call_os_diagnose net_os ["n1"; "n2"] world0).2 _ _).
  vm_compute. reflexivity.
Defined.
End MoreInstances.
